(** * Hirify backend: the authentication routes

    A shallow embedding of [hired-backend/app/routes/auth_routes.py]: the
    four handlers [signup], [login], [protected_test] and [profile], the
    request validation, the explicit upsert of the signup flow and the
    substring classification of upstream exceptions.

    The Supabase client is an external collaborator.  It is a parameter of
    every handler (a [Platform] over an arbitrary world type); the handlers
    run in a small state-and-exception monad that records each call made to
    the platform and each line printed to the log. *)

From Stdlib Require Import ZArith String Ascii List SpecFloat.
From stdpp Require Import base option gmap strings list fin_maps.
Import ListNotations.

Local Open Scope string_scope.
Local Open Scope Z_scope.
Local Open Scope list_scope.

(** ** Python values

    The JSON values a request body, a table row or a response can hold.
    Strings are sequences of code points below 256. *)

#[warnings="-register-all"]
Inductive pyval :=
| PNone
| PBool (b : bool)
| PInt (n : Z)
| PFloat (f : spec_float)
| PStr (s : string)
| PList (l : list pyval)
| PDict (d : gmap string pyval).

(** Python truth value testing: [None], [False], zero, the empty string and
    the empty containers are falsy, everything else is truthy. *)
Definition truthy (v : pyval) : bool :=
  match v with
  | PNone => false
  | PBool b => b
  | PInt n => negb (n =? 0)
  | PFloat f => match f with S754_zero _ => false | _ => true end
  | PStr s => match s with EmptyString => false | _ => true end
  | PList l => match l with [] => false | _ => true end
  | PDict d => match map_to_list d with [] => false | _ => true end
  end.

(** [all(vs)] *)
Definition py_all (vs : list pyval) : bool := forallb truthy vs.

(** [a or b] *)
Definition py_or (a b : pyval) : pyval := if truthy a then a else b.

(** [d.get(k)]: the value, or [None] when the key is absent. *)
Definition dict_get (d : gmap string pyval) (k : string) : pyval :=
  default PNone (d !! k).

(** ** Strings *)

Module Str.

(** [c.lower()] on one code point below 256: A-Z and the Latin-1 capitals
    (0xC0-0xDE except the multiplication sign 0xD7) move up by 32. *)
Definition lower_char (c : ascii) : ascii :=
  let n := N_of_ascii c in
  if ((65 <=? n) && (n <=? 90))%N
     || ((192 <=? n) && (n <=? 222) && negb (n =? 215))%N
  then ascii_of_N (n + 32)
  else c.

(** [s.lower()] *)
Fixpoint lower (s : string) : string :=
  match s with
  | EmptyString => EmptyString
  | String c r => String (lower_char c) (lower r)
  end.

(** [s.startswith(p)] *)
Fixpoint startswith (p s : string) : bool :=
  match p, s with
  | EmptyString, _ => true
  | String a p', String b s' => if Ascii.eqb a b then startswith p' s' else false
  | String _ _, EmptyString => false
  end.

(** [p in s] *)
Fixpoint contains (p s : string) : bool :=
  startswith p s ||
  match s with
  | EmptyString => false
  | String _ s' => contains p s'
  end.

(** [s.split(" ")]: cut at every single space; always at least one piece. *)
Fixpoint split_space (s : string) : list string :=
  match s with
  | EmptyString => [EmptyString]
  | String c r =>
      if Ascii.eqb c " "%char then EmptyString :: split_space r
      else match split_space r with
           | h :: t => String c h :: t
           | [] => [String c EmptyString]
           end
  end.

End Str.

(** ** The platform client

    What the handlers read from the objects the Supabase client returns. *)

Module Client.

Record User := { id : string; email : option string }.
Record Session := { access_token : string }.

(** Result of [auth.sign_up] and [auth.sign_in_with_password]. *)
Record AuthResponse := { user : option User; session : option Session }.

(** Result of [auth.get_user]; the client returns [None] or an object whose
    [user] is set. *)
Record UserResponse := { verified_user : User }.

(** Result of executing an insert or an update.  [error] is [None] when the
    object has no such attribute ([hasattr(response, 'error')] is false). *)
Record APIResponse := { error : option pyval }.

End Client.

(** The query built by [table("users").update(payload).eq(column, value)]
    or [table("users").insert(payload)], before [.execute()]. *)
Inductive db_op :=
| Update (payload : gmap string pyval) (column value : string)
| Insert (payload : gmap string pyval).

(** A call either returns or raises; of an exception the handlers only use
    [str(e)]. *)
Inductive outcome (A : Type) :=
| Returned (a : A)
| Raised (msg : string).
Arguments Returned {A} a.
Arguments Raised {A} msg.

(** The operations of the client the routes use, over the platform's own
    state [W].  The selects are
    [table("users").select(columns).eq(column, value).execute()], with
    [.single()] before [.execute()] for [select_single]. *)
Record Platform (W : Type) := {
  sign_up : pyval -> pyval -> W -> outcome Client.AuthResponse * W;
  sign_in_with_password : pyval -> pyval -> W -> outcome Client.AuthResponse * W;
  get_user : string -> W -> outcome (option Client.UserResponse) * W;
  select : string -> string -> string -> W -> outcome (list (gmap string pyval)) * W;
  select_single : string -> string -> string -> W -> outcome (option (gmap string pyval)) * W;
  execute : db_op -> W -> outcome Client.APIResponse * W
}.
Arguments sign_up {W}.
Arguments sign_in_with_password {W}.
Arguments get_user {W}.
Arguments select {W}.
Arguments select_single {W}.
Arguments execute {W}.

(** One entry per round trip to the platform. *)
Inductive call :=
| CallSignUp (email password : pyval)
| CallSignIn (email password : pyval)
| CallGetUser (token : string)
| CallSelect (columns column value : string)
| CallSelectSingle (columns column value : string)
| CallExecute (op : db_op).

Definition is_table_call (c : call) : bool :=
  match c with
  | CallSelect _ _ _ | CallSelectSingle _ _ _ | CallExecute _ => true
  | _ => false
  end.

(** ** The handler monad

    State of one request: the platform's world, the calls made so far and
    the lines printed so far (the literal part of the f-string and the value
    formatted into it).  An exception keeps the state reached. *)

Record hstate (W : Type) := {
  world : W;
  calls : list call;
  stdout : list (string * pyval)
}.
Arguments world {W}.
Arguments calls {W}.
Arguments stdout {W}.
Arguments Build_hstate {W}.

Definition start {W : Type} (w : W) : hstate W :=
  {| world := w; calls := []; stdout := [] |}.

Definition M (W A : Type) : Type := hstate W -> outcome A * hstate W.

Definition ret {W A} (a : A) : M W A := fun st => (Returned a, st).

Definition raise {W A} (msg : string) : M W A := fun st => (Raised msg, st).

Definition bind {W A B} (m : M W A) (k : A -> M W B) : M W B :=
  fun st =>
    match m st with
    | (Returned a, st') => k a st'
    | (Raised msg, st') => (Raised msg, st')
    end.

(** [try: m  except Exception as e: h str(e)] *)
Definition try_except {W A} (m : M W A) (h : string -> M W A) : M W A :=
  fun st =>
    match m st with
    | (Returned a, st') => (Returned a, st')
    | (Raised msg, st') => h msg st'
    end.

(** [print(f"{text}{v}")] *)
Definition print {W} (text : string) (v : pyval) : M W unit :=
  fun st =>
    (Returned tt,
     {| world := world st; calls := calls st; stdout := stdout st ++ [(text, v)] |}).

(** A round trip: the call is recorded, the platform answers and moves to
    its next state. *)
Definition request {W A} (c : call) (f : W -> outcome A * W) : M W A :=
  fun st =>
    let '(r, w') := f (world st) in
    (r, {| world := w'; calls := calls st ++ [c]; stdout := stdout st |}).

Declare Scope handler_scope.
Delimit Scope handler_scope with handler.
Notation "x <- m ;; k" := (bind m (fun x => k))
  (at level 100, m at next level, right associativity) : handler_scope.
Notation "m ;; k" := (bind m (fun _ => k))
  (at level 100, right associativity) : handler_scope.

Local Open Scope handler_scope.

(** ** The routes *)

(** A handler returns [(jsonify(body), status)].  In [signup] and [login]
    [data] is the value [request.get_json()] returned (a request on which
    [get_json] itself raises never reaches the code below it).  An exception
    that leaves a handler ([Raised] as the outcome of the handler itself) is
    not answered by this module: it goes to Flask. *)
Definition Response : Type := gmap string pyval * Z.

(** A dict literal [{k1: v1, ...}] with distinct keys. *)
Definition dict (kvs : list (string * pyval)) : gmap string pyval := list_to_map kvs.

(** The double quote character, for the patterns that quote a table name. *)
Definition dquote : string := String (ascii_of_N 34) EmptyString.

Definition str_or_none (o : option string) : pyval :=
  match o with
  | Some s => PStr s
  | None => PNone
  end.

(** [o.name] on an object that may be [None]. *)
Definition attr {W A B} (o : option A) (name : string) (get : A -> B) : M W B :=
  match o with
  | Some a => ret (get a)
  | None => raise (String.append "'NoneType' object has no attribute '"
                     (String.append name "'"))
  end.

(** [type(v).__name__] *)
Definition type_name (v : pyval) : string :=
  match v with
  | PNone => "NoneType"
  | PBool _ => "bool"
  | PInt _ => "int"
  | PFloat _ => "float"
  | PStr _ => "str"
  | PList _ => "list"
  | PDict _ => "dict"
  end.

(** [str(e)] of the AttributeError for [v.name] on a value without it. *)
Definition attribute_error (v : pyval) (name : string) : string :=
  String.append "'"
    (String.append (type_name v)
       (String.append "' object has no attribute '" (String.append name "'"))).

(** [data.get(k)] on the value [request.get_json()] returned: a dict
    answers with the value or [None]; null, a list, a string, a number or a
    boolean has no [get]. *)
Definition py_get {W} (data : pyval) (k : string) : M W pyval :=
  match data with
  | PDict d => ret (dict_get d k)
  | _ => raise (attribute_error data "get")
  end.

(** [d[k]] on a dict; [str(KeyError(k))] is the quoted key. *)
Definition getitem {W} (d : gmap string pyval) (k : string) : M W pyval :=
  match d !! k with
  | Some v => ret v
  | None => raise (String.append "'" (String.append k "'"))
  end.

(** [l[i]] on a list. *)
Definition index {W A} (l : list A) (i : nat) : M W A :=
  match nth_error l i with
  | Some a => ret a
  | None => raise "list index out of range"
  end.

(** [hasattr(response, 'error') and response.error] *)
Definition surfaced_error (response : Client.APIResponse) : bool :=
  match Client.error response with
  | Some err => truthy err
  | None => false
  end.

(** *** Classification of upstream exceptions *)

(** First test of the signup handler, on the lowered message. *)
Definition signup_existing_user (error_message_lower : string) : bool :=
  Str.contains "user already exists" error_message_lower
  || Str.contains "already registered" error_message_lower
  || Str.contains
       (String.append "insert or update on table "
          (String.append dquote
             (String.append "users"
                (String.append dquote " violates foreign key constraint"))))
       error_message_lower
  || Str.contains "key (auth_uid) is not present" error_message_lower.

(** Second test of the signup handler, on the message as raised. *)
Definition signup_client_library_error (error_message : string) : bool :=
  Str.contains "has no attribute 'error'" error_message
  || Str.contains "has no attribute 'user'" error_message.

(** The messages the signup handler answers with 409. *)
Definition signup_conflict (msg : string) : bool :=
  signup_existing_user (Str.lower msg) || signup_client_library_error msg.

(** The two tests of the login handler, on the lowered message. *)
Definition login_invalid_credentials (error_message : string) : bool :=
  Str.contains "invalid login credentials" error_message
  || Str.contains "invalid email or password" error_message.

Definition login_user_not_found (error_message : string) : bool :=
  Str.contains "user not found" error_message
  || Str.contains "no user with that email" error_message.

(** The messages the login handler answers with 401. *)
Definition login_unauthorized (msg : string) : bool :=
  login_invalid_credentials (Str.lower msg) || login_user_not_found (Str.lower msg).

Section Routes.

Context {W : Type} (supabase : Platform W).

(** *** POST /signup *)

(** The body of the [try] block. *)
Definition signup_try (email password first_name last_name role : pyval)
  : M W Response :=
  user_response <- request (CallSignUp email password)
                     (sign_up supabase email password) ;;
  match Client.user user_response with
  | None =>
      ret (dict [("error", PStr "Supabase signup failed to return user data.")], 400)
  | Some u =>
      let uid := Client.id u in
      profile_data <- request (CallSelect "auth_uid" "auth_uid" uid)
                        (select supabase "auth_uid" "auth_uid" uid) ;;
      let user_profile_exists := (0 <? length profile_data)%nat in
      let profile_payload :=
        dict [("first_name", first_name); ("last_name", last_name); ("role", role)] in
      let db_op :=
        if user_profile_exists
        then Update profile_payload "auth_uid" uid
        else Insert (<["auth_uid" := PStr uid]> profile_payload) in
      response <- request (CallExecute db_op) (execute supabase db_op) ;;
      if surfaced_error response then
        print "Database operation failed after successful Auth: "
          (default PNone (Client.error response)) ;;
        ret (dict [("error",
                    PStr "Profile creation/update failed. Please contact support.")],
             500)
      else
        ret (dict [("message", PStr "User registered successfully");
                   ("auth_uid", PStr uid)], 201)
  end.

(** The [except Exception as e] block, from [str(e)]. *)
Definition signup_except (error_message : string) : M W Response :=
  let error_message_lower := Str.lower error_message in
  if signup_existing_user error_message_lower then
    ret (dict [("error", PStr "This email is already registered. Please sign in.")], 409)
  else if signup_client_library_error error_message then
    ret (dict [("error", PStr "This email is already registered. Please sign in.")], 409)
  else
    print "Unexpected server-side error during signup: " (PStr error_message) ;;
    ret (dict [("error", PStr "An internal server error occurred during registration.")],
         500).

Definition signup (data : pyval) : M W Response :=
  email <- py_get data "email" ;;
  password <- py_get data "password" ;;
  first_name <- py_get data "first_name" ;;
  given_last_name <- py_get data "last_name" ;;
  let last_name := py_or given_last_name (PStr EmptyString) in
  role <- py_get data "role" ;;
  if negb (py_all [email; password; first_name; role]) then
    ret (dict [("error", PStr "All fields are required")], 400)
  else
    try_except (signup_try email password first_name last_name role) signup_except.

(** *** POST /login *)

Definition login_try (email password : pyval) : M W Response :=
  user <- request (CallSignIn email password)
            (sign_in_with_password supabase email password) ;;
  uid <- attr (Client.user user) "id" Client.id ;;
  user_data <- request (CallSelect "*" "auth_uid" uid)
                 (select supabase "*" "auth_uid" uid) ;;
  match user_data with
  | [] => ret (dict [("error", PStr "User not found in public.users")], 404)
  | profile :: _ =>
      token <- attr (Client.session user) "access_token" Client.access_token ;;
      first_name <- getitem profile "first_name" ;;
      last_name <- getitem profile "last_name" ;;
      role <- getitem profile "role" ;;
      user_email <- attr (Client.user user) "email" Client.email ;;
      ret (dict [("message", PStr "Login successful");
                 ("access_token", PStr token);
                 ("user", PDict (dict [("auth_uid", PStr uid);
                                       ("first_name", first_name);
                                       ("last_name", last_name);
                                       ("role", role);
                                       ("email", str_or_none user_email)]))],
           200)
  end.

Definition login_except (e : string) : M W Response :=
  let error_message := Str.lower e in
  if login_invalid_credentials error_message then
    ret (dict [("error", PStr "Invalid email or password")], 401)
  else if login_user_not_found error_message then
    ret (dict [("error", PStr "Invalid email or password")], 401)
  else
    print "Unexpected server error during login: " (PStr e) ;;
    ret (dict [("error", PStr "An internal server error occurred.")], 500).

Definition login (data : pyval) : M W Response :=
  email <- py_get data "email" ;;
  password <- py_get data "password" ;;
  if negb (truthy email) || negb (truthy password) then
    ret (dict [("error", PStr "Email and password required")], 400)
  else
    try_except (login_try email password) login_except.

(** *** GET /protected

    [auth_header] is [request.headers.get("Authorization")]. *)

Definition protected_try (auth_header : option string) : M W Response :=
  match auth_header with
  | None | Some EmptyString => ret (dict [("error", PStr "Missing token")], 401)
  | Some header =>
      token <- index (Str.split_space header) 1 ;;
      user <- request (CallGetUser token) (get_user supabase token) ;;
      match user with
      | None => ret (dict [("error", PStr "Invalid token")], 403)
      | Some u =>
          ret (dict [("message", PStr "Token is valid");
                     ("user_id", PStr (Client.id (Client.verified_user u)));
                     ("email", str_or_none (Client.email (Client.verified_user u)))], 200)
      end
  end.

Definition protected_test (auth_header : option string) : M W Response :=
  try_except (protected_try auth_header)
    (fun e => ret (dict [("error", PStr e)], 500)).

(** *** GET /profile/<auth_uid> *)

Definition profile_try (auth_uid : string) : M W Response :=
  response <- request (CallSelectSingle "*" "auth_uid" auth_uid)
                (select_single supabase "*" "auth_uid" auth_uid) ;;
  match response with
  | None => ret (dict [("error", PStr "User not found")], 404)
  | Some data => ret (data, 200)
  end.

Definition profile (auth_uid : string) : M W Response :=
  try_except (profile_try auth_uid)
    (fun e => ret (dict [("error", PStr e)], 500)).

End Routes.

(** ** A test double for the platform

    Every operation answers from a fixed script, whatever its arguments; the
    world counts the round trips served. *)

Module Double.

Record script := {
  on_sign_up : outcome Client.AuthResponse;
  on_sign_in : outcome Client.AuthResponse;
  on_get_user : outcome (option Client.UserResponse);
  on_select : outcome (list (gmap string pyval));
  on_select_single : outcome (option (gmap string pyval));
  on_insert : outcome Client.APIResponse;
  on_update : outcome Client.APIResponse
}.

Definition platform (s : script) : Platform nat := {|
  sign_up := fun _ _ n => (on_sign_up s, S n);
  sign_in_with_password := fun _ _ n => (on_sign_in s, S n);
  get_user := fun _ n => (on_get_user s, S n);
  select := fun _ _ _ n => (on_select s, S n);
  select_single := fun _ _ _ n => (on_select_single s, S n);
  execute := fun op n =>
    (match op with Insert _ => on_insert s | Update _ _ _ => on_update s end, S n)
|}.

(** A platform that is down: every call raises [msg]. *)
Definition failing (msg : string) : script := {|
  on_sign_up := Raised msg;
  on_sign_in := Raised msg;
  on_get_user := Raised msg;
  on_select := Raised msg;
  on_select_single := Raised msg;
  on_insert := Raised msg;
  on_update := Raised msg
|}.

Definition alice : Client.User :=
  {| Client.id := "7f3c"; Client.email := Some "a@x.com" |}.

Definition alice_row : gmap string pyval :=
  dict [("auth_uid", PStr "7f3c"); ("first_name", PStr "A");
        ("last_name", PStr EmptyString); ("role", PStr "candidate")].

Definition signed_in : Client.AuthResponse :=
  {| Client.user := Some alice;
     Client.session := Some {| Client.access_token := "tok" |} |}.

(** The platform as a first signup of alice meets it: no identity, no row. *)
Definition fresh : script := {|
  on_sign_up := Returned signed_in;
  on_sign_in := Raised "Invalid login credentials";
  on_get_user := Returned None;
  on_select := Returned [];
  on_select_single := Returned None;
  on_insert := Returned {| Client.error := None |};
  on_update := Returned {| Client.error := None |}
|}.

(** The platform once alice is registered with her profile row. *)
Definition registered : script := {|
  on_sign_up := Raised "User already registered";
  on_sign_in := Returned signed_in;
  on_get_user := Returned (Some {| Client.verified_user := alice |});
  on_select := Returned [alice_row];
  on_select_single := Returned (Some alice_row);
  on_insert := Raised "duplicate key value violates unique constraint";
  on_update := Returned {| Client.error := None |}
|}.

(** The request body of the spec's scenario: no [last_name]. *)
Definition alice_signup : gmap string pyval :=
  dict [("email", PStr "a@x.com"); ("password", PStr "p");
        ("first_name", PStr "A"); ("role", PStr "candidate")].

(** The identity exists but its profile row was never written. *)
Definition orphaned : script := {|
  on_sign_up := Returned signed_in;
  on_sign_in := Returned signed_in;
  on_get_user := Returned (Some {| Client.verified_user := alice |});
  on_select := Returned [];
  on_select_single := Returned None;
  on_insert := Returned {| Client.error := None |};
  on_update := Returned {| Client.error := None |}
|}.

(** The message of a unique-constraint violation on the users table. *)
Definition duplicate_key : string :=
  String.append "duplicate key value violates unique constraint "
    (String.append dquote (String.append "users_auth_uid_key" dquote)).

(** The lost half of a check-then-insert race: the lookup saw no row, the
    insert meets the row the other request wrote. *)
Definition lost_race : script := {|
  on_sign_up := Returned signed_in;
  on_sign_in := Returned signed_in;
  on_get_user := Returned (Some {| Client.verified_user := alice |});
  on_select := Returned [];
  on_select_single := Returned None;
  on_insert := Raised duplicate_key;
  on_update := Returned {| Client.error := None |}
|}.

(** A retry whose existence lookup finds the row: the update path. *)
Definition retried : script := {|
  on_sign_up := Returned signed_in;
  on_sign_in := Returned signed_in;
  on_get_user := Returned (Some {| Client.verified_user := alice |});
  on_select := Returned [alice_row];
  on_select_single := Returned (Some alice_row);
  on_insert := Raised duplicate_key;
  on_update := Returned {| Client.error := None |}
|}.

(** The sign-up call returns an object without a user. *)
Definition no_user_data : script := {|
  on_sign_up := Returned {| Client.user := None; Client.session := None |};
  on_sign_in := Raised "Invalid login credentials";
  on_get_user := Returned None;
  on_select := Returned [];
  on_select_single := Returned None;
  on_insert := Returned {| Client.error := None |};
  on_update := Returned {| Client.error := None |}
|}.


Definition alice_login : gmap string pyval :=
  dict [("email", PStr "a@x.com"); ("password", PStr "p")].

(** Variations of a script. *)
Definition with_sign_in (r : outcome Client.AuthResponse) (s : script) : script := {|
  on_sign_up := on_sign_up s;
  on_sign_in := r;
  on_get_user := on_get_user s;
  on_select := on_select s;
  on_select_single := on_select_single s;
  on_insert := on_insert s;
  on_update := on_update s
|}.

Definition with_select (r : outcome (list (gmap string pyval))) (s : script) : script := {|
  on_sign_up := on_sign_up s;
  on_sign_in := on_sign_in s;
  on_get_user := on_get_user s;
  on_select := r;
  on_select_single := on_select_single s;
  on_insert := on_insert s;
  on_update := on_update s
|}.

Definition with_update (r : outcome Client.APIResponse) (s : script) : script := {|
  on_sign_up := on_sign_up s;
  on_sign_in := on_sign_in s;
  on_get_user := on_get_user s;
  on_select := on_select s;
  on_select_single := on_select_single s;
  on_insert := on_insert s;
  on_update := r
|}.

(** A profile row written without a role. *)
Definition row_without_role : gmap string pyval :=
  dict [("auth_uid", PStr "7f3c"); ("first_name", PStr "A");
        ("last_name", PStr EmptyString)].

End Double.

(** ** The users table in memory

    A platform whose table operations act on a list of rows the way the
    client's queries act on the table.  [.eq(column, value)] keeps the rows
    whose column holds that text.  [.single()] asks PostgREST for one object;
    PostgREST refuses unless exactly one row matches, and the client raises
    the refusal.  The authentication calls answer from a script. *)

Module Table.

Definition matches (column value : string) (row : gmap string pyval) : bool :=
  match row !! column with
  | Some (PStr s) => String.eqb s value
  | _ => false
  end.

(** [select(columns)]: all columns for a star, else the named one. *)
Definition project (columns : string) (row : gmap string pyval) : gmap string pyval :=
  if String.eqb columns "*" then row
  else match row !! columns with
       | Some v => {[ columns := v ]}
       | None => ∅
       end.

Definition single (refusal : string) (rows : list (gmap string pyval))
  : outcome (option (gmap string pyval)) :=
  match rows with
  | [row] => Returned (Some row)
  | _ => Raised refusal
  end.

Definition platform (refusal : string) (auth : Double.script)
  : Platform (list (gmap string pyval)) := {|
  sign_up := fun _ _ t => (Double.on_sign_up auth, t);
  sign_in_with_password := fun _ _ t => (Double.on_sign_in auth, t);
  get_user := fun _ t => (Double.on_get_user auth, t);
  select := fun columns column value t =>
    (Returned (map (project columns) (List.filter (matches column value) t)), t);
  select_single := fun columns column value t =>
    (single refusal (map (project columns) (List.filter (matches column value) t)), t);
  execute := fun op t =>
    match op with
    | Insert payload => (Returned {| Client.error := None |}, t ++ [payload])
    | Update payload column value =>
        (Returned {| Client.error := None |},
         map (fun row => if matches column value row then payload ∪ row else row) t)
    end
|}.

(** The text PostgREST refuses an object request with. *)
Definition no_single_row : string :=
  "JSON object requested, multiple (or no) rows returned".

End Table.

(** ** Vocabulary of the statements *)

Definition required_signup_fields : list string :=
  ["email"; "password"; "first_name"; "role"].

(** The field is absent from the payload, or its value is falsy. *)
Definition missing_or_falsy (data : gmap string pyval) (k : string) : Prop :=
  forall v, data !! k = Some v -> truthy v = false.

(** The field is there with a truthy value. *)
Definition provided (data : gmap string pyval) (k : string) : Prop :=
  exists v, data !! k = Some v /\ truthy v = true.

(** The profile fields the signup handler writes, from the request body. *)
Definition profile_payload (data : gmap string pyval) : gmap string pyval :=
  dict [("first_name", dict_get data "first_name");
        ("last_name", py_or (dict_get data "last_name") (PStr EmptyString));
        ("role", dict_get data "role")].

(** The write the signup handler chooses from the rows of the existence
    lookup. *)
Definition upsert_op (data : gmap string pyval) (uid : string)
    (rows : list (gmap string pyval)) : db_op :=
  match rows with
  | [] => Insert (<["auth_uid" := PStr uid]> (profile_payload data))
  | _ :: _ => Update (profile_payload data) "auth_uid" uid
  end.

(** The sign-up call failed because the identity exists already. *)
Definition already_exists_error (msg : string) : bool :=
  Str.contains "user already exists" (Str.lower msg)
  || Str.contains "already registered" (Str.lower msg).

(** The message reports a duplicate key or a unique-constraint failure. *)
Definition uniqueness_violation (msg : string) : bool :=
  Str.contains "duplicate key" (Str.lower msg)
  || Str.contains "unique constraint" (Str.lower msg).

Definition registered_body (uid : string) : gmap string pyval :=
  dict [("message", PStr "User registered successfully"); ("auth_uid", PStr uid)].

Definition already_registered_body : gmap string pyval :=
  dict [("error", PStr "This email is already registered. Please sign in.")].

Definition signup_internal_error_body : gmap string pyval :=
  dict [("error", PStr "An internal server error occurred during registration.")].

Definition login_internal_error_body : gmap string pyval :=
  dict [("error", PStr "An internal server error occurred.")].

(** State after a request that started in [st]: the platform is in [w], the
    calls [cs] were made and the lines [out] printed. *)
Definition after {W : Type} (st : hstate W) (w : W) (cs : list call)
    (out : list (string * pyval)) : hstate W :=
  {| world := w; calls := calls st ++ cs; stdout := stdout st ++ out |}.

(** The failure answers of the signup route: status and [error] string. *)
Definition signup_failures : list (Z * string) :=
  [(400, "All fields are required");
   (400, "Supabase signup failed to return user data.");
   (500, "Profile creation/update failed. Please contact support.");
   (409, "This email is already registered. Please sign in.");
   (500, "An internal server error occurred during registration.")].

(** The failure answers of the login route. *)
Definition login_failures : list (Z * string) :=
  [(400, "Email and password required");
   (404, "User not found in public.users");
   (401, "Invalid email or password");
   (500, "An internal server error occurred.")].

(** The fields [login] reads from the profile row, in the order it reads
    them. *)
Definition profile_fields : list string := ["first_name"; "last_name"; "role"].

(** The payload of a write. *)
Definition payload_of (op : db_op) : gmap string pyval :=
  match op with
  | Update payload _ _ => payload
  | Insert payload => payload
  end.

(** The answer of the token check once the token is cut out of the header:
    what [get_user] says decides. *)
Definition token_verdict {W : Type} (st : hstate W) (token : string)
    (r : outcome (option Client.UserResponse) * W) : outcome Response * hstate W :=
  match r with
  | (Returned None, w1) =>
      (Returned (dict [("error", PStr "Invalid token")], 403),
       after st w1 [CallGetUser token] [])
  | (Returned (Some u), w1) =>
      (Returned (dict [("message", PStr "Token is valid");
                       ("user_id", PStr (Client.id (Client.verified_user u)));
                       ("email", str_or_none (Client.email (Client.verified_user u)))],
                 200),
       after st w1 [CallGetUser token] [])
  | (Raised msg, w1) =>
      (Returned (dict [("error", PStr msg)], 500),
       after st w1 [CallGetUser token] [])
  end.

(** What the [except] block of [signup] answers to [str(e)], and what it
    prints. *)
Definition signup_failure_response (msg : string) : Response :=
  if signup_conflict msg
  then (already_registered_body, 409)
  else (signup_internal_error_body, 500).

Definition signup_failure_log (msg : string) : list (string * pyval) :=
  if signup_conflict msg then []
  else [("Unexpected server-side error during signup: ", PStr msg)].

(** The same for [login]. *)
Definition login_failure_response (msg : string) : Response :=
  if login_unauthorized msg
  then (dict [("error", PStr "Invalid email or password")], 401)
  else (login_internal_error_body, 500).

Definition login_failure_log (msg : string) : list (string * pyval) :=
  if login_unauthorized msg then []
  else [("Unexpected server error during login: ", PStr msg)].

(** The validation tests of the two POST routes. *)
Definition signup_fields_ok (data : gmap string pyval) : bool :=
  py_all [dict_get data "email"; dict_get data "password";
          dict_get data "first_name"; dict_get data "role"].

Definition login_fields_ok (data : gmap string pyval) : bool :=
  truthy (dict_get data "email") && truthy (dict_get data "password").

(** The client's [.single()] on a platform whose world shows the users
    table: with exactly one row of that [auth_uid] the row is returned, with
    none or several the call raises. *)
Definition single_row_contract {W : Type} (P : Platform W)
    (users : W -> list (gmap string pyval)) : Prop :=
  forall (value : string) (w : W),
    match List.filter (Table.matches "auth_uid" value) (users w) with
    | [row] =>
        exists w', select_single P "*" "auth_uid" value w = (Returned (Some row), w')
    | _ =>
        exists msg w', select_single P "*" "auth_uid" value w = (Raised msg, w')
    end.

(** * Properties *)

(** ** Strings *)

Example lower_sample : Str.lower "User Already Registered" = "user already registered".
Proof. reflexivity. Qed.

Example contains_sample : Str.contains "already registered" "user already registered" = true.
Proof. reflexivity. Qed.

Example split_bearer : Str.split_space "Bearer abc.def" = ["Bearer"; "abc.def"].
Proof. reflexivity. Qed.

Example split_no_token : Str.split_space "Bearer" = ["Bearer"].
Proof. reflexivity. Qed.

Example split_double_space : Str.split_space "a  b" = ["a"; EmptyString; "b"].
Proof. reflexivity. Qed.

(** ** Validation of the signup payload *)

Lemma missing_or_falsy_get data k :
  missing_or_falsy data k -> truthy (dict_get data k) = false.
Proof.
  unfold missing_or_falsy, dict_get. intros H.
  destruct (data !! k) as [v|]; simpl; [apply H; reflexivity | reflexivity].
Qed.

Lemma provided_get data k : provided data k -> truthy (dict_get data k) = true.
Proof.
  unfold provided, dict_get. intros (v & Hv & Ht). rewrite Hv. exact Ht.
Qed.


Lemma signup_fields_accepted data :
  (forall k, In k required_signup_fields -> provided data k) ->
  py_all [dict_get data "email"; dict_get data "password";
          dict_get data "first_name"; dict_get data "role"] = true.
Proof.
  intros H. unfold py_all. simpl.
  rewrite !provided_get by (apply H; simpl; tauto). reflexivity.
Qed.

(** ** Object bodies

    On a JSON object the five [data.get] of [signup] and the two of [login]
    return, and the handler is its validation test followed by the [try]
    block. *)

Lemma signup_of_object {W : Type} (P : Platform W) (data : gmap string pyval)
    (st : hstate W) :
  signup P (PDict data) st
  = (if negb (py_all [dict_get data "email"; dict_get data "password";
                      dict_get data "first_name"; dict_get data "role"])
     then ret (dict [("error", PStr "All fields are required")], 400)
     else try_except
            (signup_try P (dict_get data "email") (dict_get data "password")
               (dict_get data "first_name")
               (py_or (dict_get data "last_name") (PStr EmptyString))
               (dict_get data "role"))
            signup_except) st.
Proof. reflexivity. Qed.

Lemma login_of_object {W : Type} (P : Platform W) (data : gmap string pyval)
    (st : hstate W) :
  login P (PDict data) st
  = (if negb (truthy (dict_get data "email"))
        || negb (truthy (dict_get data "password"))
     then ret (dict [("error", PStr "Email and password required")], 400)
     else try_except
            (login_try P (dict_get data "email") (dict_get data "password"))
            login_except) st.
Proof. reflexivity. Qed.

(** ** Running a handler

    [step H] uses the equation [H] for the next platform call and projects
    the state reached. *)

Ltac project := cbn [world calls stdout fst snd].
Ltac step H := rewrite H; project.
Ltac unfold_monad := unfold try_except, bind, request, print, ret, raise; project.

(** ** Signup *)

Section SignupFacts.

Context {W : Type} (P : Platform W).




(** Past validation the handler is the [try] block under its handler. *)
Lemma signup_validated (data : gmap string pyval) (st : hstate W) :
  (forall k, In k required_signup_fields -> provided data k) ->
  signup P (PDict data) st
  = try_except
      (signup_try P (dict_get data "email") (dict_get data "password")
         (dict_get data "first_name")
         (py_or (dict_get data "last_name") (PStr EmptyString))
         (dict_get data "role"))
      signup_except st.
Proof.
  intros H. rewrite signup_of_object, (signup_fields_accepted _ H). reflexivity.
Qed.

(** What the exception handler answers, by the class of the message. *)
Lemma signup_except_conflict msg (st : hstate W) :
  signup_conflict msg = true ->
  signup_except msg st = (Returned (already_registered_body, 409), st).
Proof.
  unfold signup_conflict, signup_except. intros H.
  destruct (signup_existing_user (Str.lower msg)); [reflexivity|].
  simpl in H. rewrite H. reflexivity.
Qed.

Lemma signup_except_unclassified msg (st : hstate W) :
  signup_conflict msg = false ->
  signup_except msg st
  = (Returned (signup_internal_error_body, 500),
     after st (world st) []
       [("Unexpected server-side error during signup: ", PStr msg)]).
Proof.
  unfold signup_conflict, signup_except. intros H.
  apply orb_false_elim in H as [-> ->].
  unfold bind, print, ret, after. simpl. rewrite app_nil_r. reflexivity.
Qed.

(** C10. When the sign-up call returns normally but its result carries no
    user object, a validated signup is answered 400 with the message
    "Supabase signup failed to return user data."; the sign-up call is the
    only call made, so no table operation is performed. *)
Theorem signup_without_user_data (data : gmap string pyval) (st : hstate W)
    (ur : Client.AuthResponse) (w1 : W) :
  (forall k, In k required_signup_fields -> provided data k) ->
  sign_up P (dict_get data "email") (dict_get data "password") (world st)
  = (Returned ur, w1) ->
  Client.user ur = None ->
  signup P (PDict data) st
  = (Returned (dict [("error", PStr "Supabase signup failed to return user data.")],
               400),
     after st w1 [CallSignUp (dict_get data "email") (dict_get data "password")] [])
  /\ forallb is_table_call
       [CallSignUp (dict_get data "email") (dict_get data "password")] = false.
Proof.
  intros Hv Hs Hu. split; [|reflexivity].
  rewrite (signup_validated _ _ Hv).
  unfold try_except, signup_try, bind, request. rewrite Hs. simpl. rewrite Hu.
  unfold ret, after. rewrite app_nil_r. reflexivity.
Qed.

(** C5. When the sign-up call fails with an already-exists error (the
    message says "user already exists" or "already registered", in any
    letter case), a validated signup is answered 409 with the body
    {"error": "This email is already registered. Please sign in."}. *)
Theorem signup_existing_email (data : gmap string pyval) (st : hstate W)
    (msg : string) (w1 : W) :
  (forall k, In k required_signup_fields -> provided data k) ->
  sign_up P (dict_get data "email") (dict_get data "password") (world st)
  = (Raised msg, w1) ->
  already_exists_error msg = true ->
  signup P (PDict data) st
  = (Returned (dict [("error",
                      PStr "This email is already registered. Please sign in.")],
               409),
     after st w1 [CallSignUp (dict_get data "email") (dict_get data "password")] []).
Proof.
  intros Hv Hs Hm.
  rewrite (signup_validated _ _ Hv).
  unfold try_except, signup_try, bind, request. rewrite Hs. simpl.
  rewrite signup_except_conflict.
  - unfold after. simpl. rewrite app_nil_r. reflexivity.
  - unfold signup_conflict, signup_existing_user.
    unfold already_exists_error in Hm.
    apply orb_true_iff in Hm as [-> | ->]; simpl; rewrite ?orb_true_r; reflexivity.
Qed.

(** The payload of the update has no [auth_uid]; the insert adds it. *)
Lemma profile_payload_no_auth_uid (data : gmap string pyval) :
  profile_payload data !! "auth_uid" = None.
Proof.
  unfold profile_payload, dict. simpl.
  rewrite !lookup_insert_ne by discriminate. apply lookup_empty.
Qed.

(** The write is the one [upsert_op] describes. *)
Lemma signup_try_db_op (data : gmap string pyval) (uid : string)
    (rows : list (gmap string pyval)) :
  (if (0 <? length rows)%nat
   then Update (profile_payload data) "auth_uid" uid
   else Insert (<["auth_uid" := PStr uid]> (profile_payload data)))
  = upsert_op data uid rows.
Proof. destruct rows; reflexivity. Qed.

(** C6. In a validated signup whose sign-up call yields the identity [uid]:
    when the existence lookup returns no rows the write is an insert whose
    payload carries [auth_uid = uid]; when it returns at least one row the
    write is an update keyed by [auth_uid] whose payload has no [auth_uid];
    in both cases, when the write returns without a surfaced error, the
    answer is 201 with {message: "User registered successfully",
    auth_uid: uid}. *)
Theorem signup_upsert (data : gmap string pyval) (st : hstate W)
    (ur : Client.AuthResponse) (u : Client.User) (w1 w2 w3 : W)
    (rows : list (gmap string pyval)) (resp : Client.APIResponse) :
  (forall k, In k required_signup_fields -> provided data k) ->
  sign_up P (dict_get data "email") (dict_get data "password") (world st)
  = (Returned ur, w1) ->
  Client.user ur = Some u ->
  select P "auth_uid" "auth_uid" (Client.id u) w1 = (Returned rows, w2) ->
  execute P (upsert_op data (Client.id u) rows) w2 = (Returned resp, w3) ->
  surfaced_error resp = false ->
  signup P (PDict data) st
  = (Returned (dict [("message", PStr "User registered successfully");
                     ("auth_uid", PStr (Client.id u))], 201),
     after st w3
       [CallSignUp (dict_get data "email") (dict_get data "password");
        CallSelect "auth_uid" "auth_uid" (Client.id u);
        CallExecute (upsert_op data (Client.id u) rows)] [])
  /\ (rows = [] ->
      exists payload,
        upsert_op data (Client.id u) rows = Insert payload
        /\ payload !! "auth_uid" = Some (PStr (Client.id u)))
  /\ (rows <> [] ->
      exists payload,
        upsert_op data (Client.id u) rows = Update payload "auth_uid" (Client.id u)
        /\ payload !! "auth_uid" = None).
Proof.
  intros Hv Hs Hu Hq He Herr. split; [|split].
  - rewrite (signup_validated _ _ Hv).
    unfold signup_try. unfold_monad. step Hs. step Hu. step Hq.
    change (dict [("first_name", dict_get data "first_name");
                  ("last_name", py_or (dict_get data "last_name") (PStr EmptyString));
                  ("role", dict_get data "role")])
      with (profile_payload data).
    rewrite signup_try_db_op. step He. rewrite Herr.
    unfold after. rewrite <- !app_assoc, app_nil_r. reflexivity.
  - intros ->. eexists. split; [reflexivity|]. apply lookup_insert_eq.
  - intros Hne. destruct rows as [|row rows]; [congruence|].
    eexists. split; [reflexivity|]. apply profile_payload_no_auth_uid.
Qed.

(** C3 (as amended). In a validated signup where the existence lookup
    returns no rows and the insert raises, the answer is 409 exactly when
    the message contains one of the substrings the handler looks for;
    otherwise, as for a unique-constraint message that contains none of
    them, it is 500 with the generic registration message and the raw
    message is printed to the log. *)
Theorem signup_insert_failure (data : gmap string pyval) (st : hstate W)
    (ur : Client.AuthResponse) (u : Client.User) (w1 w2 w3 : W) (msg : string) :
  (forall k, In k required_signup_fields -> provided data k) ->
  sign_up P (dict_get data "email") (dict_get data "password") (world st)
  = (Returned ur, w1) ->
  Client.user ur = Some u ->
  select P "auth_uid" "auth_uid" (Client.id u) w1 = (Returned [], w2) ->
  execute P (upsert_op data (Client.id u) []) w2 = (Raised msg, w3) ->
  signup P (PDict data) st
  = (Returned (if signup_conflict msg
               then (already_registered_body, 409)
               else (signup_internal_error_body, 500)),
     after st w3
       [CallSignUp (dict_get data "email") (dict_get data "password");
        CallSelect "auth_uid" "auth_uid" (Client.id u);
        CallExecute (upsert_op data (Client.id u) [])]
       (if signup_conflict msg then []
        else [("Unexpected server-side error during signup: ", PStr msg)])).
Proof.
  intros Hv Hs Hu Hq He.
  rewrite (signup_validated _ _ Hv).
  unfold signup_try. unfold_monad. step Hs. step Hu. step Hq.
  change (dict [("first_name", dict_get data "first_name");
                ("last_name", py_or (dict_get data "last_name") (PStr EmptyString));
                ("role", dict_get data "role")])
    with (profile_payload data).
  rewrite signup_try_db_op. step He.
  destruct (signup_conflict msg) eqn:Hc.
  - rewrite (signup_except_conflict _ _ Hc). unfold after. project.
    rewrite <- !app_assoc, app_nil_r. reflexivity.
  - rewrite (signup_except_unclassified _ _ Hc). unfold after. project.
    rewrite <- !app_assoc. reflexivity.
Qed.

End SignupFacts.

(** ** Login *)

Section LoginFacts.

Context {W : Type} (P : Platform W).

Lemma login_validated (data : gmap string pyval) (st : hstate W) :
  provided data "email" -> provided data "password" ->
  login P (PDict data) st
  = try_except (login_try P (dict_get data "email") (dict_get data "password"))
      login_except st.
Proof.
  intros He Hp. rewrite login_of_object.
  rewrite (provided_get _ _ He), (provided_get _ _ Hp). reflexivity.
Qed.

Lemma login_except_unauthorized msg (st : hstate W) :
  login_unauthorized msg = true ->
  login_except msg st
  = (Returned (dict [("error", PStr "Invalid email or password")], 401), st).
Proof.
  unfold login_unauthorized, login_except. intros H.
  destruct (login_invalid_credentials (Str.lower msg)); [reflexivity|].
  simpl in H. rewrite H. reflexivity.
Qed.

Lemma login_except_unclassified msg (st : hstate W) :
  login_unauthorized msg = false ->
  login_except msg st
  = (Returned (login_internal_error_body, 500),
     after st (world st) [] [("Unexpected server error during login: ", PStr msg)]).
Proof.
  unfold login_unauthorized, login_except. intros H.
  apply orb_false_elim in H as [-> ->].
  unfold_monad. unfold after. rewrite app_nil_r. reflexivity.
Qed.

(** A failed sign-in is answered by the exception handler alone. *)
Lemma login_sign_in_raised (data : gmap string pyval) (st : hstate W)
    (msg : string) (w1 : W) :
  provided data "email" -> provided data "password" ->
  sign_in_with_password P (dict_get data "email") (dict_get data "password") (world st)
  = (Raised msg, w1) ->
  login P (PDict data) st
  = login_except msg
      (after st w1 [CallSignIn (dict_get data "email") (dict_get data "password")] []).
Proof.
  intros He Hp Hs. rewrite (login_validated _ _ He Hp).
  unfold login_try. unfold_monad. step Hs.
  unfold after. rewrite app_nil_r. reflexivity.
Qed.

(** C7. When authentication succeeds with the identity [uid] but the lookup
    of the users table by that [auth_uid] returns no rows, the login is
    answered 404 with a JSON error body that holds neither an access token
    nor a user object. *)
Theorem login_without_profile (data : gmap string pyval) (st : hstate W)
    (auth : Client.AuthResponse) (u : Client.User) (w1 w2 : W) :
  provided data "email" -> provided data "password" ->
  sign_in_with_password P (dict_get data "email") (dict_get data "password") (world st)
  = (Returned auth, w1) ->
  Client.user auth = Some u ->
  select P "*" "auth_uid" (Client.id u) w1 = (Returned [], w2) ->
  exists body,
    login P (PDict data) st
    = (Returned (body, 404),
       after st w2
         [CallSignIn (dict_get data "email") (dict_get data "password");
          CallSelect "*" "auth_uid" (Client.id u)] [])
    /\ body = dict [("error", PStr "User not found in public.users")]
    /\ body !! "access_token" = None
    /\ body !! "user" = None.
Proof.
  intros He Hp Hs Hu Hq. eexists. split; [|split; [reflexivity|]].
  - rewrite (login_validated _ _ He Hp).
    unfold login_try, attr. unfold_monad. step Hs. step Hu. step Hq.
    unfold after. rewrite <- !app_assoc, app_nil_r. reflexivity.
  - unfold dict. simpl. split; (rewrite lookup_insert_ne by discriminate; apply lookup_empty).
Qed.

End LoginFacts.

(** C8. A login that fails authentication is answered the same way whatever
    the cause: when the sign-in call raises an invalid-credentials message
    in one request and a user-not-found message in another, both responses
    are 401 with the body {"error": "Invalid email or password"}, and neither
    request prints anything. *)
Theorem login_failure_indistinguishable {W1 W2 : Type}
    (P1 : Platform W1) (P2 : Platform W2)
    (data1 data2 : gmap string pyval) (st1 : hstate W1) (st2 : hstate W2)
    (wrong_password no_such_email : string) (w1 : W1) (w2 : W2) :
  provided data1 "email" -> provided data1 "password" ->
  provided data2 "email" -> provided data2 "password" ->
  sign_in_with_password P1 (dict_get data1 "email") (dict_get data1 "password")
    (world st1) = (Raised wrong_password, w1) ->
  login_invalid_credentials (Str.lower wrong_password) = true ->
  sign_in_with_password P2 (dict_get data2 "email") (dict_get data2 "password")
    (world st2) = (Raised no_such_email, w2) ->
  login_user_not_found (Str.lower no_such_email) = true ->
  fst (login P1 (PDict data1) st1)
  = Returned (dict [("error", PStr "Invalid email or password")], 401)
  /\ fst (login P2 (PDict data2) st2) = fst (login P1 (PDict data1) st1)
  /\ stdout (snd (login P1 (PDict data1) st1)) = stdout st1
  /\ stdout (snd (login P2 (PDict data2) st2)) = stdout st2.
Proof.
  intros He1 Hp1 He2 Hp2 Hs1 Hm1 Hs2 Hm2.
  rewrite (login_sign_in_raised P1 _ _ _ _ He1 Hp1 Hs1).
  rewrite (login_sign_in_raised P2 _ _ _ _ He2 Hp2 Hs2).
  rewrite !login_except_unauthorized
    by (unfold login_unauthorized; rewrite ?Hm1, ?Hm2, ?orb_true_r; reflexivity).
  unfold after. project. rewrite !app_nil_r. repeat split; reflexivity.
Qed.

(** ** Profile lookup *)

Section ProfileFacts.

Context {W : Type} (P : Platform W).

(** What the handler makes of the client's answer: data [None] gives 404,
    a row gives 200 with that row as the body. *)
Lemma profile_lookup (auth_uid : string) (st : hstate W) :
  (forall w1,
     select_single P "*" "auth_uid" auth_uid (world st) = (Returned None, w1) ->
     profile P auth_uid st
     = (Returned (dict [("error", PStr "User not found")], 404),
        after st w1 [CallSelectSingle "*" "auth_uid" auth_uid] []))
  /\
  (forall row w1,
     select_single P "*" "auth_uid" auth_uid (world st) = (Returned (Some row), w1) ->
     profile P auth_uid st
     = (Returned (row, 200),
        after st w1 [CallSelectSingle "*" "auth_uid" auth_uid] [])).
Proof.
  split; intros; unfold profile, profile_try; unfold_monad; step H;
    unfold after; rewrite app_nil_r; reflexivity.
Qed.

(** C9 (the behaviour of the code). With the client's [.single()], which
    raises unless exactly one row matches, GET /profile/<auth_uid> for an
    [auth_uid] without a profile row is answered 500 with the text of the
    exception as its error string: the 404 branch of the handler is not
    reached.  With exactly one row the answer is 200 and the body is that
    row, its fields as stored. *)
Theorem profile_of_table (users : W -> list (gmap string pyval))
    (auth_uid : string) (st : hstate W) :
  single_row_contract P users ->
  (List.filter (Table.matches "auth_uid" auth_uid) (users (world st)) = [] ->
   exists msg w1,
     profile P auth_uid st
     = (Returned (dict [("error", PStr msg)], 500),
        after st w1 [CallSelectSingle "*" "auth_uid" auth_uid] []))
  /\
  (forall row,
     List.filter (Table.matches "auth_uid" auth_uid) (users (world st)) = [row] ->
     exists w1,
       profile P auth_uid st
       = (Returned (row, 200),
          after st w1 [CallSelectSingle "*" "auth_uid" auth_uid] [])).
Proof.
  intros Hc. specialize (Hc auth_uid (world st)). split.
  - intros Hnone. rewrite Hnone in Hc. destruct Hc as (msg & w1 & Hq).
    exists msg, w1. unfold profile, profile_try. unfold_monad. step Hq.
    unfold after. rewrite app_nil_r. reflexivity.
  - intros row Hone. rewrite Hone in Hc. destruct Hc as (w1 & Hq).
    exists w1. unfold profile, profile_try. unfold_monad. step Hq.
    unfold after. rewrite app_nil_r. reflexivity.
Qed.

End ProfileFacts.

(** The table in memory keeps the contract. *)
Lemma table_single_row_contract (refusal : string) (auth : Double.script) :
  single_row_contract (Table.platform refusal auth) (fun t => t).
Proof.
  intros value t. simpl.
  assert (Hp : forall rows : list (gmap string pyval),
             map (Table.project "*") rows = rows).
  { induction rows as [|r rows IH]; simpl; [reflexivity | rewrite IH; reflexivity]. }
  rewrite Hp.
  destruct (List.filter (Table.matches "auth_uid" value) t) as [|row [|row' rows]];
    simpl; eauto.
Qed.

(** ** Token check *)

(** A header without a space is a single piece: there is no [[1]]. *)
Lemma split_space_no_space (s : string) :
  Str.contains " " s = false -> Str.split_space s = [s].
Proof.
  induction s as [|c r IH]; intros H; [reflexivity|].
  simpl in H. apply orb_false_elim in H as [Hc Hr].
  simpl. destruct (Ascii.eqb_spec c " "%char) as [->|Hne].
  - discriminate Hc.
  - rewrite (IH Hr). reflexivity.
Qed.

Section ProtectedFacts.

Context {W : Type} (P : Platform W).

(** Without the header, or with an empty one, the answer is 401. *)
Lemma protected_missing_header (st : hstate W) :
  protected_test P None st
  = (Returned (dict [("error", PStr "Missing token")], 401), st)
  /\ protected_test P (Some EmptyString) st
     = (Returned (dict [("error", PStr "Missing token")], 401), st).
Proof. split; reflexivity. Qed.

(** C1 (the behaviour of the code). A non-empty Authorization header with no
    space in it, such as "Bearer", has no second piece: indexing raises, the
    blanket handler answers 500 with the text of the exception, and the
    platform is not called. *)
Theorem protected_header_without_token (header : string) (st : hstate W) :
  header <> EmptyString ->
  Str.contains " " header = false ->
  protected_test P (Some header) st
  = (Returned (dict [("error", PStr "list index out of range")], 500), st).
Proof.
  intros Hne Hs. unfold protected_test, protected_try.
  destruct header as [|c r]; [congruence|].
  rewrite (split_space_no_space _ Hs). reflexivity.
Qed.

(** A verified token. *)
Lemma protected_valid_token (header token : string) (st : hstate W)
    (u : Client.UserResponse) (w1 : W) :
  nth_error (Str.split_space header) 1 = Some token ->
  get_user P token (world st) = (Returned (Some u), w1) ->
  protected_test P (Some header) st
  = (Returned (dict [("message", PStr "Token is valid");
                     ("user_id", PStr (Client.id (Client.verified_user u)));
                     ("email", str_or_none (Client.email (Client.verified_user u)))],
               200),
     after st w1 [CallGetUser token] []).
Proof.
  intros Ht Hg. unfold protected_test, protected_try.
  destruct header as [|c r]; [discriminate Ht|].
  unfold index. rewrite Ht. unfold_monad. step Hg.
  unfold after. rewrite app_nil_r. reflexivity.
Qed.

(** C2 (the behaviour of the code). In the profile and the token-check
    routes an exception raised by the platform reaches the caller as it is:
    the answer is 500 and its error string is the raw message. *)
Theorem raw_message_reaches_caller (msg : string) (st : hstate W) (w1 : W) :
  (forall auth_uid,
     select_single P "*" "auth_uid" auth_uid (world st) = (Raised msg, w1) ->
     profile P auth_uid st
     = (Returned (dict [("error", PStr msg)], 500),
        after st w1 [CallSelectSingle "*" "auth_uid" auth_uid] []))
  /\
  (forall header token,
     nth_error (Str.split_space header) 1 = Some token ->
     get_user P token (world st) = (Raised msg, w1) ->
     protected_test P (Some header) st
     = (Returned (dict [("error", PStr msg)], 500),
        after st w1 [CallGetUser token] [])).
Proof.
  split.
  - intros auth_uid H. unfold profile, profile_try. unfold_monad. step H.
    unfold after. rewrite app_nil_r. reflexivity.
  - intros header token Ht Hg. unfold protected_test, protected_try.
    destruct header as [|c r]; [discriminate Ht|].
    unfold index. rewrite Ht. unfold_monad. step Hg.
    unfold after. rewrite app_nil_r. reflexivity.
Qed.

End ProtectedFacts.

(** ** Unclassified failures in signup and login

    Whatever raised inside the [try] block, a message that no pattern
    matches is printed and the caller gets the fixed message. *)

Section Unclassified.

Context {W : Type} (P : Platform W).

Lemma signup_unclassified_failure (data : gmap string pyval) (st st' : hstate W)
    (msg : string) :
  (forall k, In k required_signup_fields -> provided data k) ->
  signup_try P (dict_get data "email") (dict_get data "password")
    (dict_get data "first_name")
    (py_or (dict_get data "last_name") (PStr EmptyString))
    (dict_get data "role") st = (Raised msg, st') ->
  signup_conflict msg = false ->
  signup P (PDict data) st
  = (Returned (signup_internal_error_body, 500),
     after st' (world st') []
       [("Unexpected server-side error during signup: ", PStr msg)]).
Proof.
  intros Hv Ht Hc. rewrite (signup_validated _ _ _ Hv).
  unfold try_except. rewrite Ht. apply signup_except_unclassified, Hc.
Qed.

Lemma login_unclassified_failure (data : gmap string pyval) (st st' : hstate W)
    (msg : string) :
  provided data "email" -> provided data "password" ->
  login_try P (dict_get data "email") (dict_get data "password") st
  = (Raised msg, st') ->
  login_unauthorized msg = false ->
  login P (PDict data) st
  = (Returned (login_internal_error_body, 500),
     after st' (world st') [] [("Unexpected server error during login: ", PStr msg)]).
Proof.
  intros He Hp Ht Hc. rewrite (login_validated _ _ _ He Hp).
  unfold try_except. rewrite Ht. apply login_except_unclassified, Hc.
Qed.

End Unclassified.

(** ** The handlers on the test double *)

Lemma alice_signup_provided :
  forall k, In k required_signup_fields -> provided Double.alice_signup k.
Proof.
  intros k [<-|[<-|[<-|[<-|[]]]]]; eexists; split; vm_compute; reflexivity.
Defined.

Lemma alice_login_provided :
  provided Double.alice_login "email" /\ provided Double.alice_login "password".
Proof.
  split; eexists; split; vm_compute; reflexivity.
Defined.



Lemma signup_without_user_data_witness :
  signup (Double.platform Double.no_user_data) (PDict Double.alice_signup) (start 0%nat)
  = (Returned (dict [("error", PStr "Supabase signup failed to return user data.")],
               400),
     {| world := 1%nat;
        calls := [CallSignUp (PStr "a@x.com") (PStr "p")];
        stdout := [] |}).
Proof.
  exact (proj1 (signup_without_user_data (Double.platform Double.no_user_data)
                  Double.alice_signup (start 0%nat) _ _
                  alice_signup_provided eq_refl eq_refl)).
Defined.

Lemma signup_existing_email_witness :
  signup (Double.platform Double.registered) (PDict Double.alice_signup) (start 0%nat)
  = (Returned (dict [("error",
                      PStr "This email is already registered. Please sign in.")],
               409),
     {| world := 1%nat;
        calls := [CallSignUp (PStr "a@x.com") (PStr "p")];
        stdout := [] |}).
Proof.
  exact (signup_existing_email (Double.platform Double.registered)
           Double.alice_signup (start 0%nat) "User already registered" 1%nat
           alice_signup_provided eq_refl eq_refl).
Defined.

Lemma signup_upsert_witness :
  signup (Double.platform Double.fresh) (PDict Double.alice_signup) (start 0%nat)
  = (Returned (dict [("message", PStr "User registered successfully");
                     ("auth_uid", PStr "7f3c")], 201),
     {| world := 3%nat;
        calls := [CallSignUp (PStr "a@x.com") (PStr "p");
                  CallSelect "auth_uid" "auth_uid" "7f3c";
                  CallExecute
                    (Insert (dict [("auth_uid", PStr "7f3c");
                                   ("first_name", PStr "A");
                                   ("last_name", PStr EmptyString);
                                   ("role", PStr "candidate")]))];
        stdout := [] |}).
Proof.
  exact (proj1 (signup_upsert (Double.platform Double.fresh) Double.alice_signup
                  (start 0%nat) Double.signed_in Double.alice 1%nat 2%nat 3%nat []
                  {| Client.error := None |}
                  alice_signup_provided eq_refl eq_refl eq_refl eq_refl eq_refl)).
Defined.

(** The retry of the spec: the row is there, the write is the update. *)
Example signup_retry_updates :
  signup (Double.platform Double.retried) (PDict Double.alice_signup) (start 0%nat)
  = (Returned (dict [("message", PStr "User registered successfully");
                     ("auth_uid", PStr "7f3c")], 201),
     {| world := 3%nat;
        calls := [CallSignUp (PStr "a@x.com") (PStr "p");
                  CallSelect "auth_uid" "auth_uid" "7f3c";
                  CallExecute
                    (Update (dict [("first_name", PStr "A");
                                   ("last_name", PStr EmptyString);
                                   ("role", PStr "candidate")])
                       "auth_uid" "7f3c")];
        stdout := [] |}).
Proof. reflexivity. Qed.

(** C3 (counterexample). The lost half of a check-then-insert race: the
    insert raises a unique-constraint violation, and the answer is 500 with
    the generic registration message, not 409. *)
Lemma signup_lost_race_is_internal_error :
  uniqueness_violation Double.duplicate_key = true
  /\ signup (Double.platform Double.lost_race) (PDict Double.alice_signup) (start 0%nat)
     = (Returned (dict [("error",
                         PStr "An internal server error occurred during registration.")],
                  500),
        {| world := 3%nat;
           calls := [CallSignUp (PStr "a@x.com") (PStr "p");
                     CallSelect "auth_uid" "auth_uid" "7f3c";
                     CallExecute
                       (Insert (dict [("auth_uid", PStr "7f3c");
                                      ("first_name", PStr "A");
                                      ("last_name", PStr EmptyString);
                                      ("role", PStr "candidate")]))];
           stdout := [("Unexpected server-side error during signup: ",
                       PStr Double.duplicate_key)] |})
  /\ ~ (exists body st',
          signup (Double.platform Double.lost_race) (PDict Double.alice_signup) (start 0%nat)
          = (Returned (body, 409), st')).
Proof.
  split; [reflexivity|]. split; [reflexivity|].
  intros (body & st' & H). vm_compute in H. congruence.
Qed.

Lemma signup_insert_failure_witness :
  signup_conflict Double.duplicate_key = false
  /\ fst (signup (Double.platform Double.lost_race) (PDict Double.alice_signup) (start 0%nat))
     = Returned (signup_internal_error_body, 500).
Proof.
  split; [reflexivity|].
  exact (f_equal fst
           (signup_insert_failure (Double.platform Double.lost_race)
              Double.alice_signup (start 0%nat) Double.signed_in Double.alice
              1%nat 2%nat 3%nat Double.duplicate_key
              alice_signup_provided eq_refl eq_refl eq_refl eq_refl)).
Defined.

Lemma login_without_profile_witness :
  exists body,
    fst (login (Double.platform Double.orphaned) (PDict Double.alice_login) (start 0%nat))
    = Returned (body, 404)
    /\ body !! "access_token" = None
    /\ body !! "user" = None.
Proof.
  destruct (login_without_profile (Double.platform Double.orphaned)
              Double.alice_login (start 0%nat) Double.signed_in Double.alice
              1%nat 2%nat
              (proj1 alice_login_provided) (proj2 alice_login_provided)
              eq_refl eq_refl eq_refl) as (body & Hrun & _ & Htok & Huser).
  exists body. rewrite Hrun. repeat split; assumption.
Defined.

Lemma login_failure_indistinguishable_witness :
  fst (login (Double.platform (Double.failing "User not found"))
         (PDict Double.alice_login) (start 0%nat))
  = fst (login (Double.platform (Double.failing "Invalid login credentials"))
           (PDict Double.alice_login) (start 0%nat)).
Proof.
  exact (proj1 (proj2
    (login_failure_indistinguishable
       (Double.platform (Double.failing "Invalid login credentials"))
       (Double.platform (Double.failing "User not found"))
       Double.alice_login Double.alice_login (start 0%nat) (start 0%nat)
       "Invalid login credentials" "User not found" 1%nat 1%nat
       (proj1 alice_login_provided) (proj2 alice_login_provided)
       (proj1 alice_login_provided) (proj2 alice_login_provided)
       eq_refl eq_refl eq_refl eq_refl))).
Defined.

Lemma profile_lookup_witness :
  profile (Double.platform Double.fresh) "7f3c" (start 0%nat)
  = (Returned (dict [("error", PStr "User not found")], 404),
     {| world := 1%nat;
        calls := [CallSelectSingle "*" "auth_uid" "7f3c"];
        stdout := [] |})
  /\ profile (Double.platform Double.registered) "7f3c" (start 0%nat)
     = (Returned (Double.alice_row, 200),
        {| world := 1%nat;
           calls := [CallSelectSingle "*" "auth_uid" "7f3c"];
           stdout := [] |}).
Proof.
  split.
  - exact (proj1 (profile_lookup (Double.platform Double.fresh) "7f3c" (start 0%nat))
             1%nat eq_refl).
  - exact (proj2 (profile_lookup (Double.platform Double.registered) "7f3c"
                    (start 0%nat))
             Double.alice_row 1%nat eq_refl).
Defined.

Lemma profile_of_table_witness :
  (exists msg w1,
     profile (Table.platform Table.no_single_row Double.registered) "0000"
       (start [Double.alice_row])
     = (Returned (dict [("error", PStr msg)], 500),
        after (start [Double.alice_row]) w1
          [CallSelectSingle "*" "auth_uid" "0000"] []))
  /\ (exists w1,
        profile (Table.platform Table.no_single_row Double.registered) "7f3c"
          (start [Double.alice_row])
        = (Returned (Double.alice_row, 200),
           after (start [Double.alice_row]) w1
             [CallSelectSingle "*" "auth_uid" "7f3c"] [])).
Proof.
  split.
  - exact (proj1 (profile_of_table
                    (Table.platform Table.no_single_row Double.registered)
                    (fun t => t) "0000" (start [Double.alice_row])
                    (table_single_row_contract _ _))
             eq_refl).
  - exact (proj2 (profile_of_table
                    (Table.platform Table.no_single_row Double.registered)
                    (fun t => t) "7f3c" (start [Double.alice_row])
                    (table_single_row_contract _ _))
             Double.alice_row eq_refl).
Defined.

(** The request for an unknown [auth_uid], run on the table in memory. *)
Example profile_unknown_uid_is_500 :
  profile (Table.platform Table.no_single_row Double.registered) "0000"
    (start [Double.alice_row])
  = (Returned (dict [("error", PStr Table.no_single_row)], 500),
     {| world := [Double.alice_row];
        calls := [CallSelectSingle "*" "auth_uid" "0000"];
        stdout := [] |}).
Proof. reflexivity. Qed.

Lemma protected_header_without_token_witness :
  protected_test (Double.platform Double.registered) (Some "Bearer") (start 0%nat)
  = (Returned (dict [("error", PStr "list index out of range")], 500), start 0%nat).
Proof.
  apply (protected_header_without_token (Double.platform Double.registered)
           "Bearer" (start 0%nat)); [discriminate | reflexivity].
Defined.

Lemma raw_message_reaches_caller_witness :
  signup_conflict "connection refused" = false
  /\ login_unauthorized "connection refused" = false
  /\ profile (Double.platform (Double.failing "connection refused")) "7f3c"
       (start 0%nat)
     = (Returned (dict [("error", PStr "connection refused")], 500),
        {| world := 1%nat;
           calls := [CallSelectSingle "*" "auth_uid" "7f3c"];
           stdout := [] |})
  /\ protected_test (Double.platform (Double.failing "connection refused"))
       (Some "Bearer tok") (start 0%nat)
     = (Returned (dict [("error", PStr "connection refused")], 500),
        {| world := 1%nat; calls := [CallGetUser "tok"]; stdout := [] |}).
Proof.
  split; [reflexivity|]. split; [reflexivity|]. split.
  - exact (proj1 (raw_message_reaches_caller
                    (Double.platform (Double.failing "connection refused"))
                    "connection refused" (start 0%nat) 1%nat)
             "7f3c" eq_refl).
  - exact (proj2 (raw_message_reaches_caller
                    (Double.platform (Double.failing "connection refused"))
                    "connection refused" (start 0%nat) 1%nat)
             "Bearer tok" "tok" eq_refl eq_refl).
Defined.

(** ** Every request with an object body is answered

    Past the [data.get] of [signup] and [login] no handler lets an exception
    escape: whatever the platform does, each returns a response. *)

Section Total.

Context {W : Type} (P : Platform W).

Lemma signup_answers (data : gmap string pyval) (st : hstate W) :
  exists r st', signup P (PDict data) st = (Returned r, st').
Proof.
  rewrite signup_of_object. destruct (negb _); [eexists; eexists; reflexivity|].
  unfold try_except. destruct (signup_try _ _ _ _ _ _ st) as [[r|msg] st'].
  - eexists; eexists; reflexivity.
  - destruct (signup_conflict msg) eqn:Hc.
    + rewrite (signup_except_conflict _ _ Hc). eexists; eexists; reflexivity.
    + rewrite (signup_except_unclassified _ _ Hc). eexists; eexists; reflexivity.
Qed.

Lemma login_answers (data : gmap string pyval) (st : hstate W) :
  exists r st', login P (PDict data) st = (Returned r, st').
Proof.
  rewrite login_of_object. destruct (_ || _); [eexists; eexists; reflexivity|].
  unfold try_except. destruct (login_try _ _ _ st) as [[r|msg] st'].
  - eexists; eexists; reflexivity.
  - destruct (login_unauthorized msg) eqn:Hc.
    + rewrite (login_except_unauthorized _ _ Hc). eexists; eexists; reflexivity.
    + rewrite (login_except_unclassified _ _ Hc). eexists; eexists; reflexivity.
Qed.

Lemma protected_answers (auth_header : option string) (st : hstate W) :
  exists r st', protected_test P auth_header st = (Returned r, st').
Proof.
  unfold protected_test, try_except.
  destruct (protected_try _ _ st) as [[r|msg] st']; eexists; eexists; reflexivity.
Qed.

Lemma profile_answers (auth_uid : string) (st : hstate W) :
  exists r st', profile P auth_uid st = (Returned r, st').
Proof.
  unfold profile, try_except.
  destruct (profile_try _ _ st) as [[r|msg] st']; eexists; eexists; reflexivity.
Qed.

End Total.

(** * Further properties of the routes *)

(** ** Substring tests *)

Lemma append_nil (b : string) : EmptyString +:+ b = b.
Proof. reflexivity. Qed.

Lemma append_cons (c : ascii) (a b : string) :
  String c a +:+ b = String c (a +:+ b).
Proof. reflexivity. Qed.

Lemma append_assoc (a b c : string) : (a +:+ b) +:+ c = a +:+ (b +:+ c).
Proof.
  induction a as [|x a IH]; [reflexivity|].
  rewrite !append_cons, IH. reflexivity.
Qed.

Lemma lower_append (a b : string) :
  Str.lower (a +:+ b) = Str.lower a +:+ Str.lower b.
Proof.
  induction a as [|x a IH]; [reflexivity|].
  rewrite append_cons. simpl. rewrite IH, append_cons. reflexivity.
Qed.

Lemma startswith_spec (p s : string) :
  Str.startswith p s = true <-> exists b, s = p +:+ b.
Proof.
  revert s. induction p as [|a p IH]; intros s; simpl.
  - split; [intros _; exists s; reflexivity | reflexivity].
  - destruct s as [|c s].
    + split; [discriminate | intros (b & Hb); rewrite append_cons in Hb; discriminate Hb].
    + destruct (Ascii.eqb_spec a c) as [->|Hne].
      * rewrite IH. split; intros (b & Hb); exists b.
        -- rewrite Hb, append_cons. reflexivity.
        -- rewrite append_cons in Hb. injection Hb as Hb. exact Hb.
      * split; [discriminate|]. intros (b & Hb).
        rewrite append_cons in Hb. injection Hb as Hac _. congruence.
Qed.

(** X1. The substring test the classifiers are built on is exact: [p in s]
    holds precisely when [s] is some text, then [p], then some text. *)
Theorem contains_spec (p s : string) :
  Str.contains p s = true <-> exists a b, s = a +:+ p +:+ b.
Proof.
  split.
  - induction s as [|c s IH]; simpl; intros H.
    + rewrite orb_false_r in H. apply startswith_spec in H as (b & Hb).
      exists EmptyString, b. exact Hb.
    + apply orb_true_iff in H as [H|H].
      * apply startswith_spec in H as (b & Hb). exists EmptyString, b. exact Hb.
      * destruct (IH H) as (a & b & Hab). exists (String c a), b.
        rewrite Hab, append_cons. reflexivity.
  - intros (a & b & ->). induction a as [|c a IH].
    + rewrite append_nil.
      assert (Hs : Str.startswith p (p +:+ b) = true)
        by (apply startswith_spec; exists b; reflexivity).
      destruct (p +:+ b); simpl; rewrite Hs; reflexivity.
    + rewrite append_cons. simpl. rewrite IH. apply orb_true_r.
Qed.

Lemma contains_wrap (p s a b : string) :
  Str.contains p s = true -> Str.contains p (a +:+ s +:+ b) = true.
Proof.
  rewrite !contains_spec. intros (x & y & ->).
  exists (a +:+ x), (y +:+ b). rewrite !append_assoc. reflexivity.
Qed.

Lemma contains_lower_wrap (p s a b : string) :
  Str.contains p (Str.lower s) = true ->
  Str.contains p (Str.lower (a +:+ s +:+ b)) = true.
Proof. rewrite !lower_append. apply contains_wrap. Qed.

(** X2. The classification of an exception survives any text around the
    message: what the signup handler answers with 409, and what the login
    handler answers with 401, it still does when the message is embedded in a
    longer one (a prefix, a repr of the error object, a trailing detail). *)
Theorem classification_survives_wrapping (msg before after_ : string) :
  (signup_conflict msg = true ->
   signup_conflict (before +:+ msg +:+ after_) = true)
  /\ (login_unauthorized msg = true ->
      login_unauthorized (before +:+ msg +:+ after_) = true).
Proof.
  unfold signup_conflict, signup_existing_user, signup_client_library_error,
    login_unauthorized, login_invalid_credentials, login_user_not_found.
  split; intros H;
    repeat (apply orb_true_iff in H as [H|H]);
    first [ apply (contains_lower_wrap _ _ before after_) in H
          | apply (contains_wrap _ _ before after_) in H ];
    rewrite H, ?orb_true_r; reflexivity.
Qed.

(** ** Signup: every path of the handler *)

(** Destructs a disjunction of existentially quantified conjunctions down
    to its last conjunct. *)
Ltac open_cases H :=
  repeat match type of H with
    | _ \/ _ => destruct H as [H|H]
    | exists _, _ => let x := fresh "x" in destruct H as [x H]
    | _ /\ _ => let H1 := fresh "Hp" in destruct H as [H1 H]
    end.

Ltac in_list := simpl; repeat (first [left; reflexivity | right]); fail.

Section SignupPaths.

Context {W : Type} (P : Platform W).

Lemma signup_except_run (msg : string) (st : hstate W) (w : W)
    (cs : list call) :
  signup_except msg (after st w cs [])
  = (Returned (signup_failure_response msg), after st w cs (signup_failure_log msg)).
Proof.
  unfold signup_failure_response, signup_failure_log.
  destruct (signup_conflict msg) eqn:Hc.
  - rewrite (signup_except_conflict _ _ Hc). reflexivity.
  - rewrite (signup_except_unclassified _ _ Hc). unfold after. project.
    rewrite !app_nil_r. reflexivity.
Qed.

(** The seven ways a signup request can go, each with its answer, the calls
    made and the lines printed. *)
Lemma signup_paths (data : gmap string pyval) (st : hstate W) :
  let email := dict_get data "email" in
  let password := dict_get data "password" in
  (signup_fields_ok data = false
   /\ signup P (PDict data) st
      = (Returned (dict [("error", PStr "All fields are required")], 400), st))
  \/ (exists msg w1,
        signup_fields_ok data = true
        /\ sign_up P email password (world st) = (Raised msg, w1)
        /\ signup P (PDict data) st
           = (Returned (signup_failure_response msg),
              after st w1 [CallSignUp email password] (signup_failure_log msg)))
  \/ (exists ur w1,
        signup_fields_ok data = true
        /\ sign_up P email password (world st) = (Returned ur, w1)
        /\ Client.user ur = None
        /\ signup P (PDict data) st
           = (Returned (dict [("error",
                               PStr "Supabase signup failed to return user data.")],
                        400),
              after st w1 [CallSignUp email password] []))
  \/ (exists ur u w1 msg w2,
        signup_fields_ok data = true
        /\ sign_up P email password (world st) = (Returned ur, w1)
        /\ Client.user ur = Some u
        /\ select P "auth_uid" "auth_uid" (Client.id u) w1 = (Raised msg, w2)
        /\ signup P (PDict data) st
           = (Returned (signup_failure_response msg),
              after st w2
                [CallSignUp email password;
                 CallSelect "auth_uid" "auth_uid" (Client.id u)]
                (signup_failure_log msg)))
  \/ (exists ur u w1 rows w2 msg w3,
        signup_fields_ok data = true
        /\ sign_up P email password (world st) = (Returned ur, w1)
        /\ Client.user ur = Some u
        /\ select P "auth_uid" "auth_uid" (Client.id u) w1 = (Returned rows, w2)
        /\ execute P (upsert_op data (Client.id u) rows) w2 = (Raised msg, w3)
        /\ signup P (PDict data) st
           = (Returned (signup_failure_response msg),
              after st w3
                [CallSignUp email password;
                 CallSelect "auth_uid" "auth_uid" (Client.id u);
                 CallExecute (upsert_op data (Client.id u) rows)]
                (signup_failure_log msg)))
  \/ (exists ur u w1 rows w2 resp w3 err,
        signup_fields_ok data = true
        /\ sign_up P email password (world st) = (Returned ur, w1)
        /\ Client.user ur = Some u
        /\ select P "auth_uid" "auth_uid" (Client.id u) w1 = (Returned rows, w2)
        /\ execute P (upsert_op data (Client.id u) rows) w2 = (Returned resp, w3)
        /\ Client.error resp = Some err /\ truthy err = true
        /\ signup P (PDict data) st
           = (Returned (dict [("error",
                               PStr "Profile creation/update failed. Please contact support.")],
                        500),
              after st w3
                [CallSignUp email password;
                 CallSelect "auth_uid" "auth_uid" (Client.id u);
                 CallExecute (upsert_op data (Client.id u) rows)]
                [("Database operation failed after successful Auth: ", err)]))
  \/ (exists ur u w1 rows w2 resp w3,
        signup_fields_ok data = true
        /\ sign_up P email password (world st) = (Returned ur, w1)
        /\ Client.user ur = Some u
        /\ select P "auth_uid" "auth_uid" (Client.id u) w1 = (Returned rows, w2)
        /\ execute P (upsert_op data (Client.id u) rows) w2 = (Returned resp, w3)
        /\ surfaced_error resp = false
        /\ signup P (PDict data) st
           = (Returned (registered_body (Client.id u), 201),
              after st w3
                [CallSignUp email password;
                 CallSelect "auth_uid" "auth_uid" (Client.id u);
                 CallExecute (upsert_op data (Client.id u) rows)] [])).
Proof.
  intros email password. rewrite signup_of_object. fold email password.
  change (py_all [email; password; dict_get data "first_name"; dict_get data "role"])
    with (signup_fields_ok data).
  destruct (signup_fields_ok data) eqn:Hv; [|left; split; reflexivity]. right.
  cbn [negb]. unfold try_except, signup_try, bind, request. project.
  assert (Hst : forall w cs, {| world := w; calls := calls st ++ cs; stdout := stdout st |}
                             = after st w cs []).
  { intros. unfold after. rewrite app_nil_r. reflexivity. }
  destruct (sign_up P email password (world st)) as [[ur|msg] w1] eqn:Hs; project.
  2:{ left. exists msg, w1. repeat split; try assumption. rewrite Hst. apply signup_except_run. }
  right. destruct (Client.user ur) as [u|] eqn:Hu; project.
  2:{ left. exists ur, w1. repeat split; try assumption. unfold ret. rewrite Hst. reflexivity. }
  right.
  destruct (select P "auth_uid" "auth_uid" (Client.id u) w1) as [[rows|msg] w2] eqn:Hq;
    project.
  2:{ left. exists ur, u, w1, msg, w2. repeat split; try assumption.
      rewrite <- app_assoc. rewrite Hst. apply signup_except_run. }
  right.
  change (dict [("first_name", dict_get data "first_name");
                ("last_name", py_or (dict_get data "last_name") (PStr EmptyString));
                ("role", dict_get data "role")])
    with (profile_payload data).
  rewrite !signup_try_db_op.
  destruct (execute P (upsert_op data (Client.id u) rows) w2) as [[resp|msg] w3] eqn:He;
    project.
  2:{ left. exists ur, u, w1, rows, w2, msg, w3. repeat split; try assumption.
      rewrite <- !app_assoc. rewrite Hst. apply signup_except_run. }
  right. destruct (surfaced_error resp) eqn:Herr.
  - left. unfold surfaced_error in Herr.
    destruct (Client.error resp) as [err|] eqn:Hr; [|discriminate Herr].
    exists ur, u, w1, rows, w2, resp, w3, err. repeat split; try assumption.
    unfold print, ret, after. project. rewrite <- !app_assoc. reflexivity.
  - right. exists ur, u, w1, rows, w2, resp, w3. repeat split; try assumption.
    unfold ret. rewrite <- !app_assoc, Hst. reflexivity.
Qed.

(** A body that is not an object stops at the first [data.get]: the
    AttributeError leaves the handler before any call or print. *)
Lemma signup_non_object (data : pyval) (st : hstate W) :
  (forall d, data <> PDict d) ->
  signup P data st = (Raised (attribute_error data "get"), st).
Proof. intros H. destruct data; try reflexivity. destruct (H d eq_refl). Qed.

(** X3. A signup request whose JSON body is an object is answered by the
    handler whatever the platform does, and the answer is either 201 with
    {message, auth_uid} or one of five fixed pairs of a status (400, 409,
    500) and an [error] string: no text coming from the platform or from the
    request ever appears in a signup error.  A body that is not an object
    (null, a list, a string, a number, a boolean) is not answered by the
    handler: the AttributeError of [data.get] leaves it, with no call made
    and nothing printed. *)
Theorem signup_responses (data : pyval) (st : hstate W) :
  match data with
  | PDict _ =>
      exists body status st',
        signup P data st = (Returned (body, status), st')
        /\ ((status = 201
             /\ exists uid,
                 body = dict [("message", PStr "User registered successfully");
                              ("auth_uid", PStr uid)])
            \/ exists m, In (status, m) signup_failures
                         /\ body = dict [("error", PStr m)])
  | _ => signup P data st = (Raised (attribute_error data "get"), st)
  end.
Proof.
  destruct data as [| | | | | |d]; try reflexivity.
  pose proof (signup_paths d st) as H. cbv zeta in H. open_cases H; rewrite H;
    unfold signup_failure_response; try destruct (signup_conflict _);
    do 3 eexists; (split; [reflexivity|]);
    first [ left; split; [reflexivity | eexists; reflexivity]
          | right; eexists; split; [| reflexivity]; in_list ].
Qed.

(** X4. A signup request with an object body makes at most three calls to
    the platform, always in this order: the sign-up; then the existence
    lookup by the id of the user that sign-up returned; then the write chosen
    from the rows that lookup returned (insert with [auth_uid] on no rows,
    update keyed by [auth_uid] otherwise).  201 is answered only after the
    write was executed, and an object request that made no call was rejected
    with 400.  A body that is not an object makes no call: the AttributeError
    leaves the handler. *)
Theorem signup_call_discipline (data : pyval) (st : hstate W) :
  match data with
  | PDict d =>
      let email := dict_get d "email" in
      let password := dict_get d "password" in
      exists body status st' cs,
        signup P data st = (Returned (body, status), st')
        /\ calls st' = calls st ++ cs
        /\ (cs = []
            \/ cs = [CallSignUp email password]
            \/ exists ur u w1,
                 sign_up P email password (world st) = (Returned ur, w1)
                 /\ Client.user ur = Some u
                 /\ (cs = [CallSignUp email password;
                           CallSelect "auth_uid" "auth_uid" (Client.id u)]
                     \/ exists rows w2,
                          select P "auth_uid" "auth_uid" (Client.id u) w1
                          = (Returned rows, w2)
                          /\ cs = [CallSignUp email password;
                                   CallSelect "auth_uid" "auth_uid" (Client.id u);
                                   CallExecute (upsert_op d (Client.id u) rows)]))
        /\ (status = 201 -> length cs = 3%nat)
        /\ (cs = [] -> status = 400)
  | _ => signup P data st = (Raised (attribute_error data "get"), st)
  end.
Proof.
  destruct data as [| | | | | |d]; try reflexivity.
  intros email password.
  pose proof (signup_paths d st) as H. cbv zeta in H. fold email password in H.
  destruct H as [(_ & H) | [(msg & w1 & _ & _ & H) | [(ur & w1 & _ & _ & _ & H) |
    [(ur & u & w1 & msg & w2 & _ & Hs & Hu & _ & H) |
     [(ur & u & w1 & rows & w2 & msg & w3 & _ & Hs & Hu & Hq & _ & H) |
      [(ur & u & w1 & rows & w2 & resp & w3 & err & _ & Hs & Hu & Hq & _ & _ & _ & H) |
       (ur & u & w1 & rows & w2 & resp & w3 & _ & Hs & Hu & Hq & _ & _ & H)]]]]]];
    rewrite H; unfold signup_failure_response; try destruct (signup_conflict _).
  1:{ exists (dict [("error", PStr "All fields are required")]), 400, st, [].
      rewrite app_nil_r. repeat split; auto; discriminate. }
  all: do 4 eexists; (split; [reflexivity|]); (split; [reflexivity|]);
    (split; [| split; [first [reflexivity | discriminate] | discriminate]]).
  1-3: right; left; reflexivity.
  1-2: right; right; exists ur, u, w1; repeat split; try assumption;
       left; reflexivity.
  all: right; right; exists ur, u, w1; repeat split; try assumption;
       right; exists rows, w2; split; [assumption | reflexivity].
Qed.

(** X5. For an object body the signup route prints to the log exactly when it
    answers 500, and then exactly one line; for every other answer the log
    is untouched.  For a body that is not an object the handler prints
    nothing: the AttributeError leaves it with the state as it was. *)
Theorem signup_logs_iff_500 (data : pyval) (st : hstate W) :
  match data with
  | PDict _ =>
      exists body status st' out,
        signup P data st = (Returned (body, status), st')
        /\ stdout st' = stdout st ++ out
        /\ ((status = 500 /\ length out = 1%nat) \/ (status <> 500 /\ out = []))
  | _ => signup P data st = (Raised (attribute_error data "get"), st)
  end.
Proof.
  destruct data as [| | | | | |d]; try reflexivity.
  pose proof (signup_paths d st) as H. cbv zeta in H.
  open_cases H; rewrite H; unfold signup_failure_response, signup_failure_log;
    try destruct (signup_conflict _).
  1:{ exists (dict [("error", PStr "All fields are required")]), 400, st, [].
      rewrite app_nil_r. repeat split; auto;
        try (right; split; [discriminate|reflexivity]). }
  all: do 4 eexists; (split; [reflexivity|]); (split; [reflexivity|]);
    first [ left; split; reflexivity | right; split; [discriminate | reflexivity] ].
Qed.

End SignupPaths.

Section SignupEdges.

Context {W : Type} (P : Platform W).

(** X6. When the write returns an object whose [error] attribute is set and
    truthy, the signup is answered 500 with "Profile creation/update failed.
    Please contact support." and the error is printed to the log; the
    identity created by the sign-up call stays. *)
Theorem signup_surfaced_error (data : gmap string pyval) (st : hstate W)
    (ur : Client.AuthResponse) (u : Client.User) (w1 w2 w3 : W)
    (rows : list (gmap string pyval)) (resp : Client.APIResponse) (err : pyval) :
  (forall k, In k required_signup_fields -> provided data k) ->
  sign_up P (dict_get data "email") (dict_get data "password") (world st)
  = (Returned ur, w1) ->
  Client.user ur = Some u ->
  select P "auth_uid" "auth_uid" (Client.id u) w1 = (Returned rows, w2) ->
  execute P (upsert_op data (Client.id u) rows) w2 = (Returned resp, w3) ->
  Client.error resp = Some err ->
  truthy err = true ->
  signup P (PDict data) st
  = (Returned (dict [("error",
                      PStr "Profile creation/update failed. Please contact support.")],
               500),
     after st w3
       [CallSignUp (dict_get data "email") (dict_get data "password");
        CallSelect "auth_uid" "auth_uid" (Client.id u);
        CallExecute (upsert_op data (Client.id u) rows)]
       [("Database operation failed after successful Auth: ", err)]).
Proof.
  intros Hv Hs Hu Hq He Herr Ht.
  rewrite (signup_validated _ _ _ Hv).
  unfold signup_try. unfold_monad. step Hs. step Hu. step Hq.
  change (dict [("first_name", dict_get data "first_name");
                ("last_name", py_or (dict_get data "last_name") (PStr EmptyString));
                ("role", dict_get data "role")])
    with (profile_payload data).
  rewrite signup_try_db_op. step He.
  unfold surfaced_error. rewrite Herr, Ht. project.
  unfold after. cbn [default]. rewrite <- !app_assoc. reflexivity.
Qed.

(** X7. When the existence lookup raises, no write is issued: the calls are
    the sign-up and the lookup only, and the answer is 409 or 500 by the
    class of the message, like for any other exception of the handler. *)
Theorem signup_lookup_failure (data : gmap string pyval) (st : hstate W)
    (ur : Client.AuthResponse) (u : Client.User) (w1 w2 : W) (msg : string) :
  (forall k, In k required_signup_fields -> provided data k) ->
  sign_up P (dict_get data "email") (dict_get data "password") (world st)
  = (Returned ur, w1) ->
  Client.user ur = Some u ->
  select P "auth_uid" "auth_uid" (Client.id u) w1 = (Raised msg, w2) ->
  signup P (PDict data) st
  = (Returned (signup_failure_response msg),
     after st w2
       [CallSignUp (dict_get data "email") (dict_get data "password");
        CallSelect "auth_uid" "auth_uid" (Client.id u)]
       (signup_failure_log msg)).
Proof.
  intros Hv Hs Hu Hq.
  rewrite (signup_validated _ _ _ Hv).
  unfold signup_try. unfold_monad. step Hs. step Hu. step Hq.
  rewrite <- app_assoc.
  replace {| world := w2;
             calls := calls st ++ [CallSignUp (dict_get data "email")
                                     (dict_get data "password")]
                      ++ [CallSelect "auth_uid" "auth_uid" (Client.id u)];
             stdout := stdout st |}
    with (after st w2
            [CallSignUp (dict_get data "email") (dict_get data "password");
             CallSelect "auth_uid" "auth_uid" (Client.id u)] [])
    by (unfold after; rewrite app_nil_r; reflexivity).
  apply signup_except_run.
Qed.

Lemma profile_payload_lookup (data : gmap string pyval) :
  profile_payload data !! "first_name" = Some (dict_get data "first_name")
  /\ profile_payload data !! "last_name"
     = Some (py_or (dict_get data "last_name") (PStr EmptyString))
  /\ profile_payload data !! "role" = Some (dict_get data "role").
Proof.
  unfold profile_payload, dict. simpl. repeat split.
Qed.

Lemma upsert_payload_lookup (data : gmap string pyval) (uid : string)
    (rows : list (gmap string pyval)) (k : string) :
  k <> "auth_uid" ->
  payload_of (upsert_op data uid rows) !! k = profile_payload data !! k.
Proof.
  intros Hk. destruct rows; simpl; [|reflexivity].
  apply lookup_insert_ne. congruence.
Qed.

(** X8. Every write a signup request issues carries the first_name and the
    role of the request, both truthy, and as last_name the request's own
    value when that is truthy and the empty string when it is missing or
    falsy: no profile is written with a missing or falsy name or role, or
    with a null last_name, and a given last_name is never dropped. *)
Theorem signup_write_payload (data : gmap string pyval) (st : hstate W)
    (cs : list call) (op : db_op) :
  calls (snd (signup P (PDict data) st)) = calls st ++ cs ->
  In (CallExecute op) cs ->
  payload_of op !! "first_name" = Some (dict_get data "first_name")
  /\ truthy (dict_get data "first_name") = true
  /\ payload_of op !! "role" = Some (dict_get data "role")
  /\ truthy (dict_get data "role") = true
  /\ (truthy (dict_get data "last_name") = true ->
      payload_of op !! "last_name" = Some (dict_get data "last_name"))
  /\ (truthy (dict_get data "last_name") = false ->
      payload_of op !! "last_name" = Some (PStr EmptyString)).
Proof.
  intros Hcalls Hin.
  pose proof (signup_paths P data st) as H. cbv zeta in H.
  assert (Hfacts : signup_fields_ok data = true ->
            forall uid rows, op = upsert_op data uid rows ->
            payload_of op !! "first_name" = Some (dict_get data "first_name")
            /\ truthy (dict_get data "first_name") = true
            /\ payload_of op !! "role" = Some (dict_get data "role")
            /\ truthy (dict_get data "role") = true
            /\ (truthy (dict_get data "last_name") = true ->
                payload_of op !! "last_name" = Some (dict_get data "last_name"))
            /\ (truthy (dict_get data "last_name") = false ->
                payload_of op !! "last_name" = Some (PStr EmptyString))).
  { intros Hv uid rows ->.
    unfold signup_fields_ok, py_all in Hv. simpl in Hv.
    apply andb_true_iff in Hv as [_ Hv]. apply andb_true_iff in Hv as [_ Hv].
    apply andb_true_iff in Hv as [Hf Hv]. apply andb_true_iff in Hv as [Hr _].
    destruct (profile_payload_lookup data) as (Lf & Ll & Lr).
    rewrite !upsert_payload_lookup by discriminate.
    repeat split; try assumption;
      intros Ht; rewrite Ll; unfold py_or; rewrite Ht; reflexivity. }
  open_cases H; rewrite H in Hcalls; unfold after in Hcalls; cbn [snd calls] in Hcalls.
  1:{ rewrite <- (app_nil_r (calls st)) in Hcalls at 1.
      apply app_inv_head in Hcalls. subst cs. destruct Hin. }
  all: apply app_inv_head in Hcalls; subst cs; simpl in Hin;
    repeat (destruct Hin as [Hin|Hin]; try discriminate Hin); try contradiction;
    injection Hin as Hin; eapply Hfacts; eauto.
Qed.

End SignupEdges.

(** ** Login: every path of the handler *)

Section LoginPaths.

Context {W : Type} (P : Platform W).

Lemma login_except_run (msg : string) (st : hstate W) (w : W) (cs : list call) :
  login_except msg (after st w cs [])
  = (Returned (login_failure_response msg), after st w cs (login_failure_log msg)).
Proof.
  unfold login_failure_response, login_failure_log.
  destruct (login_unauthorized msg) eqn:Hc.
  - rewrite (login_except_unauthorized _ _ Hc). reflexivity.
  - rewrite (login_except_unclassified _ _ Hc). unfold after. project.
    rewrite !app_nil_r. reflexivity.
Qed.

Lemma login_rejected (data : gmap string pyval) (st : hstate W) :
  login_fields_ok data = false ->
  login P (PDict data) st
  = (Returned (dict [("error", PStr "Email and password required")], 400), st).
Proof.
  unfold login_fields_ok. intros H.
  rewrite login_of_object, <- negb_andb, H. reflexivity.
Qed.

Lemma login_accepted (data : gmap string pyval) (st : hstate W) :
  login_fields_ok data = true ->
  login P (PDict data) st
  = try_except (login_try P (dict_get data "email") (dict_get data "password"))
      login_except st.
Proof.
  unfold login_fields_ok. intros H.
  rewrite login_of_object, <- negb_andb, H. reflexivity.
Qed.

(** The four ways a login request can end: rejected by validation, failed
    with an exception (of the platform, or of the handler reading what the
    platform returned), no profile row, success. *)
Lemma login_paths (data : gmap string pyval) (st : hstate W) :
  let email := dict_get data "email" in
  let password := dict_get data "password" in
  (login_fields_ok data = false
   /\ login P (PDict data) st
      = (Returned (dict [("error", PStr "Email and password required")], 400), st))
  \/ (exists msg w cs,
        (cs = [CallSignIn email password]
         \/ exists uid, cs = [CallSignIn email password;
                              CallSelect "*" "auth_uid" uid])
        /\ login P (PDict data) st
           = (Returned (login_failure_response msg),
              after st w cs (login_failure_log msg)))
  \/ (exists uid w,
        login P (PDict data) st
        = (Returned (dict [("error", PStr "User not found in public.users")], 404),
           after st w [CallSignIn email password; CallSelect "*" "auth_uid" uid] []))
  \/ (exists uid w token first_name last_name role user_email,
        login P (PDict data) st
        = (Returned
             (dict [("message", PStr "Login successful");
                    ("access_token", PStr token);
                    ("user", PDict (dict [("auth_uid", PStr uid);
                                          ("first_name", first_name);
                                          ("last_name", last_name);
                                          ("role", role);
                                          ("email", str_or_none user_email)]))],
              200),
           after st w [CallSignIn email password; CallSelect "*" "auth_uid" uid] [])).
Proof.
  intros email password.
  destruct (login_fields_ok data) eqn:Hv;
    [|left; split; [reflexivity | apply login_rejected, Hv]].
  right. rewrite (login_accepted _ _ Hv). fold email password.
  assert (Hst : forall w cs, {| world := w; calls := calls st ++ cs; stdout := stdout st |}
                             = after st w cs []).
  { intros. unfold after. rewrite app_nil_r. reflexivity. }
  unfold login_try, attr, getitem. unfold_monad.
  destruct (sign_in_with_password P email password (world st)) as [[auth|msg] w1];
    project.
  2:{ left. exists msg, w1, [CallSignIn email password]. split; [left; reflexivity|].
      rewrite Hst. apply login_except_run. }
  destruct (Client.user auth) as [u|]; project.
  2:{ left. eexists _, w1, [CallSignIn email password]. split; [left; reflexivity|].
      rewrite Hst. apply login_except_run. }
  destruct (select P "*" "auth_uid" (Client.id u) w1) as [[rows|msg] w2]; project;
    rewrite <- ?app_assoc, Hst.
  2:{ left. eexists msg, w2, _. split; [right; eexists; reflexivity|].
      apply login_except_run. }
  destruct rows as [|row rows].
  { right. left. exists (Client.id u), w2. reflexivity. }
  destruct (Client.session auth) as [s|]; project.
  2:{ left. eexists _, w2, _. split; [right; eexists; reflexivity|].
      apply login_except_run. }
  destruct (row !! "first_name") as [f|]; project.
  2:{ left. eexists _, w2, _. split; [right; eexists; reflexivity|].
      apply login_except_run. }
  destruct (row !! "last_name") as [l|]; project.
  2:{ left. eexists _, w2, _. split; [right; eexists; reflexivity|].
      apply login_except_run. }
  destruct (row !! "role") as [r|]; project.
  2:{ left. eexists _, w2, _. split; [right; eexists; reflexivity|].
      apply login_except_run. }
  right. right. eexists _, w2, _, _, _, _, _. reflexivity.
Qed.

Lemma login_non_object (data : pyval) (st : hstate W) :
  (forall d, data <> PDict d) ->
  login P data st = (Raised (attribute_error data "get"), st).
Proof. intros H. destruct data; try reflexivity. destruct (H d eq_refl). Qed.

(** X9. A login request whose JSON body is an object is answered by the
    handler whatever the platform does, and the answer is either 200 with
    {message, access_token, user} or one of four fixed pairs of a status
    (400, 404, 401, 500) and an [error] string; it makes at most two calls
    (sign-in, then the profile lookup), and it prints one line to the log
    exactly when it answers 500.  A body that is not an object is not
    answered by the handler: the AttributeError of [data.get] leaves it, with
    no call made and nothing printed. *)
Theorem login_responses (data : pyval) (st : hstate W) :
  match data with
  | PDict _ =>
      exists body status st' cs out,
        login P data st = (Returned (body, status), st')
        /\ calls st' = calls st ++ cs
        /\ stdout st' = stdout st ++ out
        /\ (length cs <= 2)%nat
        /\ ((status = 200
             /\ body !! "message" = Some (PStr "Login successful")
             /\ is_Some (body !! "access_token")
             /\ is_Some (body !! "user"))
            \/ exists m, In (status, m) login_failures
                         /\ body = dict [("error", PStr m)])
        /\ ((status = 500 /\ length out = 1%nat) \/ (status <> 500 /\ out = []))
  | _ => login P data st = (Raised (attribute_error data "get"), st)
  end.
Proof.
  destruct data as [| | | | | |d]; try reflexivity.
  pose proof (login_paths d st) as H. cbv zeta in H.
  destruct H as [(_ & H) | [(msg & w & cs & Hcs & H) | [(uid & w & H) | H]]].
  - rewrite H. exists (dict [("error", PStr "Email and password required")]), 400, st, [], [].
    rewrite !app_nil_r. do 3 (split; [reflexivity|]). split; [simpl; lia|]. split.
    + right. eexists. split; [|reflexivity]. in_list.
    + right. split; [discriminate | reflexivity].
  - rewrite H. unfold login_failure_response, login_failure_log.
    assert (Hlen : (length cs <= 2)%nat)
      by (destruct Hcs as [->|(uid & ->)]; simpl; lia).
    destruct (login_unauthorized msg); do 5 eexists;
      (split; [reflexivity|]); repeat (split; [first [reflexivity | exact Hlen]|]).
    + split; [right; eexists; split; [|reflexivity]; in_list|].
      right. split; [discriminate | reflexivity].
    + split; [right; eexists; split; [|reflexivity]; in_list|].
      left. split; reflexivity.
  - rewrite H. do 5 eexists. split; [reflexivity|].
    repeat (split; [first [reflexivity | simpl; lia]|]).
    split; [right; eexists; split; [|reflexivity]; in_list|].
    right. split; [discriminate | reflexivity].
  - destruct H as (uid & w & token & f & l & r & e & H). rewrite H.
    do 5 eexists. split; [reflexivity|].
    repeat (split; [first [reflexivity | simpl; lia]|]).
    split.
    + left. unfold dict. simpl. repeat split; eexists; reflexivity.
    + right. split; [discriminate | reflexivity].
Qed.

End LoginPaths.

Section LoginEdges.

Context {W : Type} (P : Platform W).

Lemma login_provided_ok (data : gmap string pyval) :
  provided data "email" -> provided data "password" -> login_fields_ok data = true.
Proof.
  intros He Hp. unfold login_fields_ok.
  rewrite (provided_get _ _ He), (provided_get _ _ Hp). reflexivity.
Qed.

(** X10. A login payload that is a JSON object in which email or password
    is missing or falsy is answered 400 "Email and password required", and
    the request leaves no trace: no call to the platform, nothing printed.  A
    payload that is not an object has neither field and is not answered by
    the handler: the AttributeError of [data.get] leaves it, again without a
    call or a print. *)
Theorem login_validation (data : pyval) (st : hstate W) :
  (forall d,
     data = PDict d ->
     missing_or_falsy d "email" \/ missing_or_falsy d "password" ->
     login P data st
     = (Returned (dict [("error", PStr "Email and password required")], 400), st))
  /\ ((forall d, data <> PDict d) ->
      login P data st = (Raised (attribute_error data "get"), st)).
Proof.
  split.
  - intros d -> H. apply login_rejected. unfold login_fields_ok.
    destruct H as [H|H]; apply missing_or_falsy_get in H; rewrite H;
      [reflexivity | apply andb_false_r].
  - apply login_non_object.
Qed.

(** X11. A login whose sign-in returns a user and a session, and whose
    lookup returns at least one row holding first_name, last_name and role,
    is answered 200 with the access token of the session and a user object
    built from the identity (auth_uid, email) and from the first row only
    (first_name, last_name, role, as stored); further rows and further
    columns are ignored. *)
Theorem login_success (data : gmap string pyval) (st : hstate W)
    (auth : Client.AuthResponse) (u : Client.User) (s : Client.Session)
    (w1 w2 : W) (row : gmap string pyval) (rows : list (gmap string pyval))
    (first_name last_name role : pyval) :
  provided data "email" -> provided data "password" ->
  sign_in_with_password P (dict_get data "email") (dict_get data "password") (world st)
  = (Returned auth, w1) ->
  Client.user auth = Some u ->
  Client.session auth = Some s ->
  select P "*" "auth_uid" (Client.id u) w1 = (Returned (row :: rows), w2) ->
  row !! "first_name" = Some first_name ->
  row !! "last_name" = Some last_name ->
  row !! "role" = Some role ->
  login P (PDict data) st
  = (Returned
       (dict [("message", PStr "Login successful");
              ("access_token", PStr (Client.access_token s));
              ("user", PDict (dict [("auth_uid", PStr (Client.id u));
                                    ("first_name", first_name);
                                    ("last_name", last_name);
                                    ("role", role);
                                    ("email", str_or_none (Client.email u))]))],
        200),
     after st w2
       [CallSignIn (dict_get data "email") (dict_get data "password");
        CallSelect "*" "auth_uid" (Client.id u)] []).
Proof.
  intros He Hp Hs Hu Hse Hq Hf Hl Hr.
  rewrite (login_validated _ _ _ He Hp).
  unfold login_try, attr, getitem. unfold_monad.
  step Hs. step Hu. step Hq. step Hse. step Hf. step Hl. step Hr.
  unfold after. rewrite <- !app_assoc, app_nil_r. reflexivity.
Qed.

(** X12. When the first row of the lookup lacks first_name, last_name or
    role, the login is answered 500 with the generic message, and the log
    holds the quoted name of a missing field (the first one the handler
    reads): the caller gets no token and no partial user object. *)
Theorem login_missing_profile_field (data : gmap string pyval) (st : hstate W)
    (auth : Client.AuthResponse) (u : Client.User) (s : Client.Session)
    (w1 w2 : W) (row : gmap string pyval) (rows : list (gmap string pyval)) :
  provided data "email" -> provided data "password" ->
  sign_in_with_password P (dict_get data "email") (dict_get data "password") (world st)
  = (Returned auth, w1) ->
  Client.user auth = Some u ->
  Client.session auth = Some s ->
  select P "*" "auth_uid" (Client.id u) w1 = (Returned (row :: rows), w2) ->
  (exists k, In k profile_fields /\ row !! k = None) ->
  exists k,
    In k profile_fields /\ row !! k = None
    /\ login P (PDict data) st
       = (Returned (dict [("error", PStr "An internal server error occurred.")], 500),
          after st w2
            [CallSignIn (dict_get data "email") (dict_get data "password");
             CallSelect "*" "auth_uid" (Client.id u)]
            [("Unexpected server error during login: ",
              PStr ("'" +:+ k +:+ "'"))]).
Proof.
  intros He Hp Hs Hu Hse Hq (k0 & Hin & Hk0).
  rewrite (login_validated _ _ _ He Hp).
  unfold login_try, attr, getitem. unfold_monad.
  step Hs. step Hu. step Hq. step Hse.
  destruct (row !! "first_name") as [f|] eqn:Hf; project.
  2:{ exists "first_name". split; [simpl; tauto|]. split; [exact Hf|].
      rewrite login_except_unclassified by reflexivity.
      unfold after. project. rewrite <- !app_assoc, !app_nil_r. reflexivity. }
  destruct (row !! "last_name") as [l|] eqn:Hl; project.
  2:{ exists "last_name". split; [simpl; tauto|]. split; [exact Hl|].
      rewrite login_except_unclassified by reflexivity.
      unfold after. project. rewrite <- !app_assoc, !app_nil_r. reflexivity. }
  destruct (row !! "role") as [r|] eqn:Hr; project.
  2:{ exists "role". split; [simpl; tauto|]. split; [exact Hr|].
      rewrite login_except_unclassified by reflexivity.
      unfold after. project. rewrite <- !app_assoc, !app_nil_r. reflexivity. }
  exfalso. simpl in Hin.
  destruct Hin as [<-|[<-|[<-|[]]]]; congruence.
Qed.

(** X13. When the sign-in call returns an object without a user, the login
    is answered 500 with the generic message after the sign-in call alone:
    the profile table is not read, and the log holds the AttributeError. *)
Theorem login_without_user (data : gmap string pyval) (st : hstate W)
    (auth : Client.AuthResponse) (w1 : W) :
  provided data "email" -> provided data "password" ->
  sign_in_with_password P (dict_get data "email") (dict_get data "password") (world st)
  = (Returned auth, w1) ->
  Client.user auth = None ->
  login P (PDict data) st
  = (Returned (dict [("error", PStr "An internal server error occurred.")], 500),
     after st w1
       [CallSignIn (dict_get data "email") (dict_get data "password")]
       [("Unexpected server error during login: ",
         PStr "'NoneType' object has no attribute 'id'")]).
Proof.
  intros He Hp Hs Hu.
  rewrite (login_validated _ _ _ He Hp).
  unfold login_try, attr. unfold_monad. step Hs. step Hu.
  rewrite login_except_unclassified by reflexivity.
  unfold after. project. rewrite !app_nil_r. reflexivity.
Qed.

(** X14. When the sign-in call returns a user but no session and the profile
    row exists, the login is answered 500 with the generic message, after
    both calls; the log holds the AttributeError on access_token. *)
Theorem login_without_session (data : gmap string pyval) (st : hstate W)
    (auth : Client.AuthResponse) (u : Client.User) (w1 w2 : W)
    (row : gmap string pyval) (rows : list (gmap string pyval)) :
  provided data "email" -> provided data "password" ->
  sign_in_with_password P (dict_get data "email") (dict_get data "password") (world st)
  = (Returned auth, w1) ->
  Client.user auth = Some u ->
  Client.session auth = None ->
  select P "*" "auth_uid" (Client.id u) w1 = (Returned (row :: rows), w2) ->
  login P (PDict data) st
  = (Returned (dict [("error", PStr "An internal server error occurred.")], 500),
     after st w2
       [CallSignIn (dict_get data "email") (dict_get data "password");
        CallSelect "*" "auth_uid" (Client.id u)]
       [("Unexpected server error during login: ",
         PStr "'NoneType' object has no attribute 'access_token'")]).
Proof.
  intros He Hp Hs Hu Hse Hq.
  rewrite (login_validated _ _ _ He Hp).
  unfold login_try, attr. unfold_monad. step Hs. step Hu. step Hq. step Hse.
  rewrite login_except_unclassified by reflexivity.
  unfold after. project. rewrite <- !app_assoc, !app_nil_r. reflexivity.
Qed.

End LoginEdges.

(** ** Token check: which token is verified *)

Lemma split_space_scheme (scheme rest : string) :
  Str.contains " " scheme = false ->
  Str.split_space (scheme +:+ " " +:+ rest) = scheme :: Str.split_space rest.
Proof.
  induction scheme as [|c r IH]; intros H.
  - rewrite append_nil, append_cons, append_nil. reflexivity.
  - simpl in H. apply orb_false_elim in H as [Hc Hr].
    rewrite append_cons. simpl.
    destruct (Ascii.eqb_spec c " "%char) as [->|Hne]; [discriminate Hc|].
    rewrite (IH Hr). reflexivity.
Qed.

Section ProtectedPaths.

Context {W : Type} (P : Platform W).

(** With a second piece in the header, the answer is the platform's verdict
    on that piece. *)
Lemma protected_by_token (header token : string) (st : hstate W) :
  nth_error (Str.split_space header) 1 = Some token ->
  protected_test P (Some header) st
  = token_verdict st token (get_user P token (world st)).
Proof.
  intros Ht. unfold protected_test, protected_try.
  destruct header as [|c r]; [discriminate Ht|].
  unfold index. rewrite Ht. unfold_monad. unfold token_verdict, after.
  destruct (get_user P token (world st)) as [[[u|]|msg] w1]; project;
    rewrite app_nil_r; reflexivity.
Qed.

(** X15. The token check verifies the text between the first and the second
    space of the header and nothing else: the scheme before the first space
    is never looked at (any word, or none, does as well as "Bearer"), what
    follows a second space is dropped, and an empty token is still sent to
    the platform.  The platform's verdict decides: no user gives 403, a user
    gives 200 with its id and email, an exception gives 500 with its text. *)
Theorem protected_token_extraction (scheme token rest header : string)
    (st : hstate W) :
  Str.contains " " scheme = false ->
  Str.contains " " token = false ->
  header = scheme +:+ " " +:+ token
  \/ header = scheme +:+ " " +:+ token +:+ " " +:+ rest ->
  protected_test P (Some header) st
  = token_verdict st token (get_user P token (world st)).
Proof.
  intros Hs Ht Hh. apply protected_by_token.
  destruct Hh as [-> | ->]; rewrite (split_space_scheme _ _ Hs).
  - rewrite (split_space_no_space _ Ht). reflexivity.
  - rewrite (split_space_scheme _ _ Ht). reflexivity.
Qed.

(** X16. Whatever the header and the platform, the token check is answered
    with status 200, 401, 403 or 500; it makes at most one call to the
    platform and never prints; 200 and 403 are answered only after the
    platform was asked, and 401 only without asking it. *)
Theorem protected_responses (auth_header : option string) (st : hstate W) :
  exists body status st' cs,
    protected_test P auth_header st = (Returned (body, status), st')
    /\ calls st' = calls st ++ cs
    /\ stdout st' = stdout st
    /\ In status [200; 401; 403; 500]
    /\ (cs = [] \/ exists token, cs = [CallGetUser token])
    /\ (status = 200 \/ status = 403 -> exists token, cs = [CallGetUser token])
    /\ (status = 401 -> cs = []).
Proof.
  destruct auth_header as [[|c r]|].
  1,3: exists (dict [("error", PStr "Missing token")]), 401, st, [];
    rewrite app_nil_r; repeat split; auto;
    try (simpl; tauto); try (left; reflexivity);
    intros [H|H]; discriminate H.
  destruct (nth_error (Str.split_space (String c r)) 1) as [token|] eqn:Ht.
  - rewrite (protected_by_token _ _ _ Ht). unfold token_verdict, after.
    destruct (get_user P token (world st)) as [[[u|]|msg] w1];
      do 4 eexists; (split; [reflexivity|]); project;
      (split; [reflexivity|]); (split; [apply app_nil_r|]);
      (split; [simpl; tauto|]); (split; [right; eexists; reflexivity|]);
      (split; [intros _; eexists; reflexivity | discriminate]).
  - unfold protected_test, protected_try, index. rewrite Ht. unfold_monad.
    exists (dict [("error", PStr "list index out of range")]), 500, st, [].
    rewrite app_nil_r. repeat split; auto;
      try (simpl; tauto); try (left; reflexivity);
      try discriminate; intros [H|H]; discriminate H.
Qed.

End ProtectedPaths.

(** ** Profile lookup: one round trip *)

Section ProfilePaths.

Context {W : Type} (P : Platform W).

(** X17. A profile request makes exactly one call to the platform, the
    single-row select of all columns of the users table by the [auth_uid] of
    the path, whatever that text is; it never prints, and its status is 200,
    404 or 500. *)
Theorem profile_single_call (auth_uid : string) (st : hstate W) :
  exists body status w1,
    profile P auth_uid st
    = (Returned (body, status),
       after st w1 [CallSelectSingle "*" "auth_uid" auth_uid] [])
    /\ w1 = snd (select_single P "*" "auth_uid" auth_uid (world st))
    /\ In status [200; 404; 500].
Proof.
  unfold profile, profile_try. unfold_monad. unfold after.
  destruct (select_single P "*" "auth_uid" auth_uid (world st)) as [[[row|]|msg] w1];
    project; do 3 eexists; rewrite app_nil_r;
    (split; [reflexivity|]); (split; [reflexivity|]); simpl; tauto.
Qed.

End ProfilePaths.

(** ** The further properties on the test double *)

Lemma contains_spec_witness :
  Str.contains "already registered" "User already registered" = true.
Proof.
  apply (proj2 (contains_spec "already registered" "User already registered")).
  exists "User ", EmptyString. reflexivity.
Defined.

Lemma classification_survives_wrapping_witness :
  signup_conflict "{'message': 'User already registered', 'code': 422}" = true
  /\ login_unauthorized "AuthApiError: Invalid login credentials (400)" = true.
Proof.
  split.
  - exact (proj1 (classification_survives_wrapping "User already registered"
                    "{'message': '" "', 'code': 422}") eq_refl).
  - exact (proj2 (classification_survives_wrapping "Invalid login credentials"
                    "AuthApiError: " " (400)") eq_refl).
Defined.

Lemma signup_call_discipline_witness :
  (exists cs,
     calls (snd (signup (Double.platform Double.fresh) (PDict Double.alice_signup)
                   (start 0%nat))) = cs
     /\ length cs = 3%nat)
  /\ signup (Double.platform Double.fresh) (PList []) (start 0%nat)
     = (Raised "'list' object has no attribute 'get'", start 0%nat).
Proof.
  split.
  - destruct (signup_call_discipline (Double.platform Double.fresh)
                (PDict Double.alice_signup) (start 0%nat))
      as (body & status & st' & cs & Hrun & Hcalls & _ & H201 & _).
    exists cs. rewrite Hrun. split; [exact Hcalls|].
    apply H201. vm_compute in Hrun. congruence.
  - exact (signup_call_discipline (Double.platform Double.fresh) (PList [])
             (start 0%nat)).
Defined.

Lemma signup_surfaced_error_witness :
  signup (Double.platform
            (Double.with_update
               (Returned {| Client.error := Some (PStr "permission denied") |})
               Double.retried))
    (PDict Double.alice_signup) (start 0%nat)
  = (Returned (dict [("error",
                      PStr "Profile creation/update failed. Please contact support.")],
               500),
     {| world := 3%nat;
        calls := [CallSignUp (PStr "a@x.com") (PStr "p");
                  CallSelect "auth_uid" "auth_uid" "7f3c";
                  CallExecute
                    (Update (dict [("first_name", PStr "A");
                                   ("last_name", PStr EmptyString);
                                   ("role", PStr "candidate")])
                       "auth_uid" "7f3c")];
        stdout := [("Database operation failed after successful Auth: ",
                    PStr "permission denied")] |}).
Proof.
  exact (signup_surfaced_error
           (Double.platform
              (Double.with_update
                 (Returned {| Client.error := Some (PStr "permission denied") |})
                 Double.retried))
           Double.alice_signup (start 0%nat) Double.signed_in Double.alice
           1%nat 2%nat 3%nat [Double.alice_row]
           {| Client.error := Some (PStr "permission denied") |}
           (PStr "permission denied")
           alice_signup_provided eq_refl eq_refl eq_refl eq_refl eq_refl eq_refl).
Defined.

Lemma signup_lookup_failure_witness :
  signup (Double.platform (Double.with_select (Raised "connection reset") Double.fresh))
    (PDict Double.alice_signup) (start 0%nat)
  = (Returned (dict [("error",
                      PStr "An internal server error occurred during registration.")],
               500),
     {| world := 2%nat;
        calls := [CallSignUp (PStr "a@x.com") (PStr "p");
                  CallSelect "auth_uid" "auth_uid" "7f3c"];
        stdout := [("Unexpected server-side error during signup: ",
                    PStr "connection reset")] |}).
Proof.
  exact (signup_lookup_failure
           (Double.platform (Double.with_select (Raised "connection reset") Double.fresh))
           Double.alice_signup (start 0%nat) Double.signed_in Double.alice
           1%nat 2%nat "connection reset"
           alice_signup_provided eq_refl eq_refl eq_refl).
Defined.

Lemma signup_write_payload_witness :
  payload_of
    (Insert (dict [("auth_uid", PStr "7f3c"); ("first_name", PStr "A");
                   ("last_name", PStr EmptyString); ("role", PStr "candidate")]))
  !! "last_name" = Some (PStr EmptyString).
Proof.
  refine (proj2 (proj2 (proj2 (proj2 (proj2
            (signup_write_payload (Double.platform Double.fresh)
               Double.alice_signup (start 0%nat)
               [CallSignUp (PStr "a@x.com") (PStr "p");
                CallSelect "auth_uid" "auth_uid" "7f3c";
                CallExecute
                  (Insert (dict [("auth_uid", PStr "7f3c");
                                 ("first_name", PStr "A");
                                 ("last_name", PStr EmptyString);
                                 ("role", PStr "candidate")]))]
               _ eq_refl _))))) eq_refl).
  simpl. tauto.
Defined.

Lemma login_validation_witness :
  login (Double.platform Double.registered) (PDict (dict [("email", PStr "a@x.com")]))
    (start 0%nat)
  = (Returned (dict [("error", PStr "Email and password required")], 400),
     start 0%nat)
  /\ login (Double.platform Double.registered) PNone (start 0%nat)
     = (Raised "'NoneType' object has no attribute 'get'", start 0%nat).
Proof.
  split.
  - apply (proj1 (login_validation (Double.platform Double.registered)
                    (PDict (dict [("email", PStr "a@x.com")])) (start 0%nat))
             (dict [("email", PStr "a@x.com")]) eq_refl).
    right. intros v Hv. vm_compute in Hv. discriminate Hv.
  - apply (proj2 (login_validation (Double.platform Double.registered) PNone
                    (start 0%nat))).
    intros d Hd. discriminate Hd.
Defined.

Lemma login_success_witness :
  login (Double.platform Double.registered) (PDict Double.alice_login) (start 0%nat)
  = (Returned
       (dict [("message", PStr "Login successful");
              ("access_token", PStr "tok");
              ("user", PDict (dict [("auth_uid", PStr "7f3c");
                                    ("first_name", PStr "A");
                                    ("last_name", PStr EmptyString);
                                    ("role", PStr "candidate");
                                    ("email", PStr "a@x.com")]))],
        200),
     {| world := 2%nat;
        calls := [CallSignIn (PStr "a@x.com") (PStr "p");
                  CallSelect "*" "auth_uid" "7f3c"];
        stdout := [] |}).
Proof.
  exact (login_success (Double.platform Double.registered) Double.alice_login
           (start 0%nat) Double.signed_in Double.alice
           {| Client.access_token := "tok" |} 1%nat 2%nat Double.alice_row []
           (PStr "A") (PStr EmptyString) (PStr "candidate")
           (proj1 alice_login_provided) (proj2 alice_login_provided)
           eq_refl eq_refl eq_refl eq_refl eq_refl eq_refl eq_refl).
Defined.

Lemma login_missing_profile_field_witness :
  exists k,
    In k profile_fields
    /\ fst (login (Double.platform
                    (Double.with_select (Returned [Double.row_without_role])
                       Double.registered))
              (PDict Double.alice_login) (start 0%nat))
       = Returned (dict [("error", PStr "An internal server error occurred.")], 500)
    /\ Double.row_without_role !! k = None.
Proof.
  destruct (login_missing_profile_field
              (Double.platform
                 (Double.with_select (Returned [Double.row_without_role])
                    Double.registered))
              Double.alice_login (start 0%nat) Double.signed_in Double.alice
              {| Client.access_token := "tok" |} 1%nat 2%nat
              Double.row_without_role []
              (proj1 alice_login_provided) (proj2 alice_login_provided)
              eq_refl eq_refl eq_refl eq_refl
              (ex_intro _ "role" (conj (or_intror (or_intror (or_introl eq_refl)))
                                    eq_refl)))
    as (k & Hin & Hk & Hrun).
  exists k. rewrite Hrun. repeat split; assumption.
Defined.

Lemma login_without_user_witness :
  login (Double.platform
           (Double.with_sign_in
              (Returned {| Client.user := None; Client.session := None |})
              Double.registered))
    (PDict Double.alice_login) (start 0%nat)
  = (Returned (dict [("error", PStr "An internal server error occurred.")], 500),
     {| world := 1%nat;
        calls := [CallSignIn (PStr "a@x.com") (PStr "p")];
        stdout := [("Unexpected server error during login: ",
                    PStr "'NoneType' object has no attribute 'id'")] |}).
Proof.
  exact (login_without_user
           (Double.platform
              (Double.with_sign_in
                 (Returned {| Client.user := None; Client.session := None |})
                 Double.registered))
           Double.alice_login (start 0%nat)
           {| Client.user := None; Client.session := None |} 1%nat
           (proj1 alice_login_provided) (proj2 alice_login_provided)
           eq_refl eq_refl).
Defined.

Lemma login_without_session_witness :
  login (Double.platform
           (Double.with_sign_in
              (Returned {| Client.user := Some Double.alice; Client.session := None |})
              Double.registered))
    (PDict Double.alice_login) (start 0%nat)
  = (Returned (dict [("error", PStr "An internal server error occurred.")], 500),
     {| world := 2%nat;
        calls := [CallSignIn (PStr "a@x.com") (PStr "p");
                  CallSelect "*" "auth_uid" "7f3c"];
        stdout := [("Unexpected server error during login: ",
                    PStr "'NoneType' object has no attribute 'access_token'")] |}).
Proof.
  exact (login_without_session
           (Double.platform
              (Double.with_sign_in
                 (Returned {| Client.user := Some Double.alice;
                              Client.session := None |})
                 Double.registered))
           Double.alice_login (start 0%nat)
           {| Client.user := Some Double.alice; Client.session := None |}
           Double.alice 1%nat 2%nat Double.alice_row []
           (proj1 alice_login_provided) (proj2 alice_login_provided)
           eq_refl eq_refl eq_refl eq_refl).
Defined.

Lemma protected_token_extraction_witness :
  protected_test (Double.platform Double.registered) (Some "Basic tok and more")
    (start 0%nat)
  = (Returned (dict [("message", PStr "Token is valid");
                     ("user_id", PStr "7f3c");
                     ("email", PStr "a@x.com")], 200),
     {| world := 1%nat; calls := [CallGetUser "tok"]; stdout := [] |})
  /\ protected_test (Double.platform Double.fresh) (Some "Bearer ") (start 0%nat)
     = (Returned (dict [("error", PStr "Invalid token")], 403),
        {| world := 1%nat; calls := [CallGetUser EmptyString]; stdout := [] |}).
Proof.
  split.
  - exact (protected_token_extraction (Double.platform Double.registered)
             "Basic" "tok" "and more" "Basic tok and more" (start 0%nat)
             eq_refl eq_refl (or_intror eq_refl)).
  - exact (protected_token_extraction (Double.platform Double.fresh)
             "Bearer" EmptyString EmptyString "Bearer " (start 0%nat)
             eq_refl eq_refl (or_introl eq_refl)).
Defined.

Lemma protected_responses_witness :
  exists token,
    calls (snd (protected_test (Double.platform Double.registered)
                  (Some "Bearer tok") (start 0%nat)))
    = [CallGetUser token].
Proof.
  destruct (protected_responses (Double.platform Double.registered)
              (Some "Bearer tok") (start 0%nat))
    as (body & status & st' & cs & Hrun & Hcalls & _ & _ & _ & Hasked & _).
  destruct Hasked as (token & Htoken).
  - left. vm_compute in Hrun. congruence.
  - exists token. rewrite Hrun. cbn [snd]. rewrite Hcalls, Htoken. reflexivity.
Defined.

(** ** Exceptions of the first call and of the profile lookup *)

Section UpstreamFailures.

Context {W : Type} (P : Platform W).

(** X18. When the sign-up call raises, whatever the message, the signup
    makes no further call; the answer is 409 "This email is already
    registered. Please sign in." when the message matches one of the
    handler's patterns (among them the AttributeError texts "has no
    attribute 'user'" and "has no attribute 'error'", read as raised), and
    otherwise 500 with the generic message, the raw message going to the
    log. *)
Theorem signup_sign_up_failure (data : gmap string pyval) (st : hstate W)
    (msg : string) (w1 : W) :
  (forall k, In k required_signup_fields -> provided data k) ->
  sign_up P (dict_get data "email") (dict_get data "password") (world st)
  = (Raised msg, w1) ->
  signup P (PDict data) st
  = (Returned (signup_failure_response msg),
     after st w1
       [CallSignUp (dict_get data "email") (dict_get data "password")]
       (signup_failure_log msg)).
Proof.
  intros Hv Hs. rewrite (signup_validated _ _ _ Hv).
  unfold signup_try. unfold_monad. step Hs.
  replace {| world := w1;
             calls := calls st ++ [CallSignUp (dict_get data "email")
                                     (dict_get data "password")];
             stdout := stdout st |}
    with (after st w1
            [CallSignUp (dict_get data "email") (dict_get data "password")] [])
    by (unfold after; rewrite app_nil_r; reflexivity).
  apply signup_except_run.
Qed.

(** X19. When the sign-in succeeds and the profile lookup raises, the login
    answer depends on the text of that exception alone: 401 "Invalid email or
    password" when it matches a credential or user-not-found pattern (a
    lookup error saying "user not found" is reported as bad credentials),
    otherwise 500 with the generic message and the raw message in the log. *)
Theorem login_lookup_failure (data : gmap string pyval) (st : hstate W)
    (auth : Client.AuthResponse) (u : Client.User) (w1 w2 : W) (msg : string) :
  provided data "email" -> provided data "password" ->
  sign_in_with_password P (dict_get data "email") (dict_get data "password") (world st)
  = (Returned auth, w1) ->
  Client.user auth = Some u ->
  select P "*" "auth_uid" (Client.id u) w1 = (Raised msg, w2) ->
  login P (PDict data) st
  = (Returned (login_failure_response msg),
     after st w2
       [CallSignIn (dict_get data "email") (dict_get data "password");
        CallSelect "*" "auth_uid" (Client.id u)]
       (login_failure_log msg)).
Proof.
  intros He Hp Hs Hu Hq. rewrite (login_validated _ _ _ He Hp).
  unfold login_try, attr. unfold_monad. step Hs. step Hu. step Hq.
  rewrite <- app_assoc.
  replace {| world := w2;
             calls := calls st ++ [CallSignIn (dict_get data "email")
                                     (dict_get data "password")]
                      ++ [CallSelect "*" "auth_uid" (Client.id u)];
             stdout := stdout st |}
    with (after st w2
            [CallSignIn (dict_get data "email") (dict_get data "password");
             CallSelect "*" "auth_uid" (Client.id u)] [])
    by (unfold after; rewrite app_nil_r; reflexivity).
  apply login_except_run.
Qed.

End UpstreamFailures.

Lemma signup_sign_up_failure_witness :
  signup (Double.platform
            (Double.failing "'NoneType' object has no attribute 'user'"))
    (PDict Double.alice_signup) (start 0%nat)
  = (Returned (dict [("error",
                      PStr "This email is already registered. Please sign in.")],
               409),
     {| world := 1%nat;
        calls := [CallSignUp (PStr "a@x.com") (PStr "p")];
        stdout := [] |}).
Proof.
  exact (signup_sign_up_failure
           (Double.platform
              (Double.failing "'NoneType' object has no attribute 'user'"))
           Double.alice_signup (start 0%nat)
           "'NoneType' object has no attribute 'user'" 1%nat
           alice_signup_provided eq_refl).
Defined.

Lemma login_lookup_failure_witness :
  login (Double.platform
           (Double.with_select (Raised "User not found") Double.registered))
    (PDict Double.alice_login) (start 0%nat)
  = (Returned (dict [("error", PStr "Invalid email or password")], 401),
     {| world := 2%nat;
        calls := [CallSignIn (PStr "a@x.com") (PStr "p");
                  CallSelect "*" "auth_uid" "7f3c"];
        stdout := [] |}).
Proof.
  exact (login_lookup_failure
           (Double.platform
              (Double.with_select (Raised "User not found") Double.registered))
           Double.alice_login (start 0%nat) Double.signed_in Double.alice
           1%nat 2%nat "User not found"
           (proj1 alice_login_provided) (proj2 alice_login_provided)
           eq_refl eq_refl eq_refl).
Defined.
